(** * Pokecord menus: a shallow embedding of [pokecord/menus.py]

    The development follows the layout of the Python module:

    - [Py]: the handful of Python built-ins the module relies on (list
      indexing with negative subscripts, [str] of an integer, [str.zfill],
      truthiness), and the exceptions that can travel through a handler;
    - [Aio]: the state-and-exception monad in which the coroutines run;
    - [Menus]: the part of [discord.ext.menus] the two menu classes inherit
      or call ([ListPageSource], [MenuPages.show_page],
      [MenuPages.show_checked_page], [Menu.stop], [Menu.buttons],
      [Menu.update]);
    - [PokeListMenu], [PokeList], [GenericMenu]: the classes of the module.

    [discord.ext.menus] is the library the classes derive from (Red ships
    it as [redbot.vendored.discord.ext.menus]); its methods are transcribed
    here next to the Python text they model.

    Calls that reach Discord (sending, editing and deleting messages, invoking
    a command) are recorded in a trace; they are assumed to succeed, and so
    is the rendering of a page that the source has returned. *)

From Stdlib Require Import ZArith List String Ascii Bool Lia DecimalString.
Import ListNotations.
Local Open Scope string_scope.
Local Open Scope list_scope.
Local Open Scope Z_scope.

(* ------------------------------------------------------------------ *)
(** ** Python built-ins *)

Module Py.

Inductive exn : Type :=
| IndexError
| TypeError
| KeyError
| TimeoutError.   (* asyncio.TimeoutError *)

Inductive result (A : Type) : Type :=
| Ok (a : A)
| Raise (e : exn).
Arguments Ok {A} a.
Arguments Raise {A} e.

Definition exn_eqb (a b : exn) : bool :=
  match a, b with
  | IndexError, IndexError | TypeError, TypeError
  | KeyError, KeyError | TimeoutError, TimeoutError => true
  | _, _ => false
  end.

Definition len {A} (l : list A) : Z := Z.of_nat (List.length l).

(** [l[i]]: a negative subscript counts from the end, anything outside
    [-len l .. len l - 1] raises [IndexError]. *)
Definition getitem {A} (l : list A) (i : Z) : result A :=
  let j := if i <? 0 then i + len l else i in
  if j <? 0 then Raise IndexError
  else match nth_error l (Z.to_nat j) with
       | Some x => Ok x
       | None => Raise IndexError
       end.

(** [str(n)] for an integer. *)
Definition str (n : Z) : string := NilZero.string_of_int (Z.to_int n).

Fixpoint zeros (k : nat) : string :=
  match k with
  | O => EmptyString
  | S k' => String "0" (zeros k')
  end.

(** [s.zfill(width)]: pads on the left with zeros, after the sign if any. *)
Definition zfill (s : string) (width : nat) : string :=
  let fill := (width - String.length s)%nat in
  match s with
  | String c rest =>
      if (Ascii.eqb c "+" || Ascii.eqb c "-")%bool
      then String c (zeros fill ++ rest)%string
      else (zeros fill ++ s)%string
  | EmptyString => zeros fill
  end.

(** [v if v else None] for the result of [dict.get(key)]: [None], [0] and
    the empty string are falsy. *)
Definition truthy_int (v : option Z) : option Z :=
  match v with
  | Some n => if n =? 0 then None else Some n
  | None => None
  end.

Definition truthy_str (v : option string) : option string :=
  match v with
  | Some s => if String.eqb s "" then None else Some s
  | None => None
  end.

(** [sep.join(l)]. *)
Definition join (sep : string) (l : list string) : string := String.concat sep l.

Definition nl : string := String (ascii_of_nat 10) EmptyString.

End Py.

(* ------------------------------------------------------------------ *)
(** ** Coroutines as a state-and-exception monad

    A coroutine reads and writes its state and either returns or raises.
    The state survives a raise: Python does not roll attribute writes
    back. *)

Module Aio.
Import Py.

Definition M (S A : Type) : Type := S -> result A * S.

Definition ret {S A} (a : A) : M S A := fun s => (Ok a, s).

Definition bind {S A B} (c : M S A) (k : A -> M S B) : M S B :=
  fun s =>
    match c s with
    | (Ok a, s') => k a s'
    | (Raise e, s') => (Raise e, s')
    end.

Definition raise {S A} (e : exn) : M S A := fun s => (Raise e, s).

Definition modify {S} (f : S -> S) : M S unit := fun s => (Ok tt, f s).

(** [try: body  except e: handler] *)
Definition try_except {S A} (body : M S A) (e : exn) (handler : M S A) : M S A :=
  fun s =>
    match body s with
    | (Raise e', s') => if exn_eqb e e' then handler s' else (Raise e', s')
    | r => r
    end.

(** [try: body  except Exception as exc: handler(exc)] *)
Definition try_except_all {S A} (body : M S A) (handler : exn -> M S A) : M S A :=
  fun s =>
    match body s with
    | (Raise e', s') => handler e' s'
    | r => r
    end.

(** [for x in xs: body(x)] *)
Fixpoint for_each {S A} (xs : list A) (body : A -> M S unit) : M S unit :=
  match xs with
  | [] => ret tt
  | x :: xs' => bind (body x) (fun _ => for_each xs' body)
  end.

Definition lift {S A} (r : result A) : M S A := fun s => (r, s).

End Aio.

Declare Scope aio_scope.
Delimit Scope aio_scope with aio.
Notation "x <- c ;; k" := (Aio.bind c (fun x => k))
  (at level 61, c at next level, right associativity) : aio_scope.
Notation "c ;; k" := (Aio.bind c (fun _ => k))
  (at level 61, right associativity) : aio_scope.
Local Open Scope aio_scope.

(* ------------------------------------------------------------------ *)
(** ** What the menus inherit from [discord.ext.menus] *)

Module Menus.
Import Py Aio.

(** A page source, as the menus use it: [get_max_pages()] is [None] when
    the number of pages is unknown, [get_page(n)] may raise. *)
Record PageSource (E : Type) : Type := {
  get_max_pages : option Z;
  get_page : Z -> result E
}.
Arguments get_max_pages {E} _.
Arguments get_page {E} _ _.

(** [ListPageSource(entries, per_page=1)], the only way the module builds a
    source: [divmod(len(entries), 1)] gives [len(entries)] pages, and
    [get_page(n)] is [entries[n]]. *)
Definition ListPageSource {E} (entries : list E) : PageSource E :=
  {| get_max_pages := Some (len entries);
     get_page := getitem entries |}.

Inductive emoji : Type :=
| BLACK_LEFT_POINTING_TRIANGLE
| CROSS_MARK
| BLACK_RIGHT_POINTING_TRIANGLE
| LEFT_POINTING_MAGNIFYING_GLASS
| WHITE_HEAVY_CHECK_MARK
| BLACK_LEFT_POINTING_DOUBLE_TRIANGLE_WITH_VERTICAL_BAR
| BLACK_RIGHT_POINTING_DOUBLE_TRIANGLE_WITH_VERTICAL_BAR
| other_emoji (name : string).

Definition emoji_eqb (a b : emoji) : bool :=
  match a, b with
  | BLACK_LEFT_POINTING_TRIANGLE, BLACK_LEFT_POINTING_TRIANGLE
  | CROSS_MARK, CROSS_MARK
  | BLACK_RIGHT_POINTING_TRIANGLE, BLACK_RIGHT_POINTING_TRIANGLE
  | LEFT_POINTING_MAGNIFYING_GLASS, LEFT_POINTING_MAGNIFYING_GLASS
  | WHITE_HEAVY_CHECK_MARK, WHITE_HEAVY_CHECK_MARK
  | BLACK_LEFT_POINTING_DOUBLE_TRIANGLE_WITH_VERTICAL_BAR,
    BLACK_LEFT_POINTING_DOUBLE_TRIANGLE_WITH_VERTICAL_BAR
  | BLACK_RIGHT_POINTING_DOUBLE_TRIANGLE_WITH_VERTICAL_BAR,
    BLACK_RIGHT_POINTING_DOUBLE_TRIANGLE_WITH_VERTICAL_BAR => true
  | other_emoji x, other_emoji y => String.eqb x y
  | _, _ => false
  end.

(** The attributes of a menu object the module reads or writes.  [user] is
    set by [PokeListMenu.__init__] only; users are compared by their id. *)
Record Menu (E : Type) : Type := {
  _source : PageSource E;
  ctx_author : Z;          (* self.ctx.author *)
  user : Z;                (* self.user *)
  owner_ids : list Z;      (* self.bot.owner_ids *)
  _author_id : Z;
  message_id : Z;          (* self.message.id *)
  current_page : Z;
  _running : bool
}.
Arguments _source {E} _.
Arguments ctx_author {E} _.
Arguments user {E} _.
Arguments owner_ids {E} _.
Arguments _author_id {E} _.
Arguments message_id {E} _.
Arguments current_page {E} _.
Arguments _running {E} _.

Definition set_current_page {E} (n : Z) (m : Menu E) : Menu E :=
  {| _source := _source m; ctx_author := ctx_author m; user := user m;
     owner_ids := owner_ids m; _author_id := _author_id m;
     message_id := message_id m; current_page := n;
     _running := _running m |}.

Definition set_running {E} (b : bool) (m : Menu E) : Menu E :=
  {| _source := _source m; ctx_author := ctx_author m; user := user m;
     owner_ids := owner_ids m; _author_id := _author_id m;
     message_id := message_id m; current_page := current_page m;
     _running := b |}.

(** What a handler does to the outside, in the order it happens. *)
Inductive effect : Type :=
| Send (id : Z) (content : string) (delete_after : option Z)  (* ctx.send *)
| Delete (id : Z)                                             (* msg.delete() *)
| Edit (page_number : Z)             (* self.message.edit(...) with that page *)
| Invoke (command : string) (_id : Z)                         (* ctx.invoke *)
| ButtonError (e : exn).                      (* on_menu_button_error(exc) *)

Record World : Type := {
  trace : list effect;
  next_id : Z            (* id the next sent message gets *)
}.

Definition record_effect (ef : effect) (w : World) : World :=
  {| trace := trace w ++ [ef]; next_id := next_id w |}.

Definition State (E : Type) : Type := (Menu E * World)%type.

(** What a run leaves behind: how it ended, the menu, the outside. *)
Definition outcome {E A} (r : Py.result A * State E) : Py.result A := fst r.
Definition menu_after {E A} (r : Py.result A * State E) : Menu E := fst (snd r).
Definition world_after {E A} (r : Py.result A * State E) : World := snd (snd r).

(** A coroutine of a menu over entries of type [E]. *)
Definition Co (E A : Type) : Type := M (State E) A.

Section Primitives.
Context {E : Type}.

Definition self : Co E (Menu E) := fun s => (Ok (fst s), s).

Definition emit (ef : effect) : Co E unit :=
  modify (fun s : State E => (fst s, record_effect ef (snd s))).

(** The outside once a message with that content has been sent. *)
Definition sent (content : string) (delete_after : option Z) (w : World) : World :=
  {| trace := trace w ++ [Send (next_id w) content delete_after];
     next_id := next_id w + 1 |}.

(** [await ctx.send(content, delete_after=...)]: the new message's id. *)
Definition ctx_send (content : string) (delete_after : option Z) : Co E Z :=
  fun s =>
    let w := snd s in
    (Ok (next_id w),
     (fst s, sent content delete_after w)).

(** [self._source.get_max_pages() - 1]: a [TypeError] on [None]. *)
Definition get_max_pages_minus_1 : Co E Z :=
  m <- self ;;
  match get_max_pages (_source m) with
  | Some n => ret (n - 1)
  | None => raise TypeError
  end.

(** [MenuPages.show_page]:
    page = await self._source.get_page(page_number);
    self.current_page = page_number;
    the page is rendered and the menu's message edited to show it. *)
Definition show_page (page_number : Z) : Co E unit :=
  m <- self ;;
  _ <- lift (get_page (_source m) page_number) ;;
  modify (fun s : State E => (set_current_page page_number (fst s), snd s)) ;;
  emit (Edit page_number).

(** [MenuPages.show_checked_page]: shows the page when the source knows
    no maximum or the page is within it; an [IndexError] is swallowed. *)
Definition show_checked_page (page_number : Z) : Co E unit :=
  m <- self ;;
  try_except
    (match get_max_pages (_source m) with
     | None => show_page page_number
     | Some max_pages =>
         if (max_pages >? page_number) && (page_number >=? 0)
         then show_page page_number
         else ret tt
     end)
    IndexError (ret tt).

(** [Menu.stop]: [self._running = False]. *)
Definition stop : Co E unit :=
  modify (fun s : State E => (set_running false (fst s), snd s)).

End Primitives.

(** A reaction event, and what [bot.wait_for("message_without_command",
    check=pred, timeout=10.0)] turns out to give should the handler ask:
    a message that passed [MessagePredicate.valid_int] (so [int(msg.content)]
    is defined, and is [pred.result]) or a timeout. *)
Record Message : Type := { msg_id : Z; content_int : Z }.

Inductive wait_outcome : Type :=
| Reply (msg : Message)
| Timeout.

Record Payload : Type := {
  payload_message_id : Z;
  payload_user_id : Z;
  payload_emoji : emoji
}.

Record Event : Type := { payload : Payload; wait_for : wait_outcome }.

Record Button (E : Type) : Type := {
  button_emoji : emoji;
  skip_if : Menu E -> bool;
  action : Event -> Co E unit
}.
Arguments button_emoji {E} _.
Arguments skip_if {E} _ _.
Arguments action {E} _ _.

(** The two wrap-around moves, for sequences of them. *)
Inductive nav : Type := go_prev | go_next.

(** [skip_if=None] in [menus.button]: the button is never skipped. *)
Definition never_skip {E} (_ : Menu E) : bool := false.

Section Dispatch.
Context {E : Type}.
(** The buttons the class declares ([cls._buttons]). *)
Variable class_buttons : list (Button E).

(** [Menu.buttons]: the declared buttons whose [skip_if] is false. *)
Definition buttons (m : Menu E) : list (Button E) :=
  filter (fun b => negb (skip_if b m)) class_buttons.

Definition lookup_button (m : Menu E) (e : emoji) : option (Button E) :=
  find (fun b => emoji_eqb (button_emoji b) e) (buttons m).

(** [reaction_check], the same text in both classes. *)
Definition reaction_check (m : Menu E) (p : Payload) : bool :=
  if negb (payload_message_id p =? message_id m) then false
  else if negb (existsb (Z.eqb (payload_user_id p)) (owner_ids m ++ [_author_id m]))
  then false
  else existsb (fun b => emoji_eqb (button_emoji b) (payload_emoji p)) (buttons m).

(** [Menu.update]: looks the button up, returns at once when the menu is
    not running, otherwise runs the button and hands any exception to
    [on_menu_button_error]. *)
Definition update (ev : Event) : Co E unit :=
  m <- self ;;
  match lookup_button m (payload_emoji (payload ev)) with
  | None => raise KeyError
  | Some button =>
      if negb (_running m) then ret tt
      else try_except_all (action button ev) (fun exc => emit (ButtonError exc))
  end.

(** One turn of [Menu._internal_loop]: while the menu runs, an event that
    passes [reaction_check] is handed to [update]; any other is never
    delivered. *)
Definition dispatch (s : State E) (ev : Event) : State E :=
  if _running (fst s) && reaction_check (fst s) (payload ev)
  then snd (update ev s)
  else s.

Definition run (s : State E) (evs : list Event) : State E :=
  fold_left dispatch evs s.

End Dispatch.

End Menus.

(* ------------------------------------------------------------------ *)
(** ** [class PokeListMenu(menus.MenuPages, inherit_buttons=False)] *)

Module PokeListMenu.
Import Py Aio Menus.

Section Handlers.
Context {E : Type}.

Definition _cant_select (m : Menu E) : bool :=
  negb (ctx_author m =? user m).

Definition prev (_ : Payload) : Co E unit :=
  m <- self ;;
  if current_page m =? 0
  then (last <- get_max_pages_minus_1 ;; show_page last)
  else show_checked_page (current_page m - 1).

Definition stop_pages_default (_ : Payload) : Co E unit := stop.

Definition next (_ : Payload) : Co E unit :=
  m <- self ;;
  last <- get_max_pages_minus_1 ;;
  if current_page m =? last
  then show_page 0
  else show_checked_page (current_page m + 1).

(** The two texts [number_page] sends. *)
Definition jump_prompt : string := "Please select the Pokémon ID number to jump to.".
Definition jump_notice : string := "Invalid Pokémon ID, jumping to the end.".

(** The local [cleanup(messages)] of [number_page]. *)
Definition cleanup (messages : list Z) : Co E unit :=
  for_each messages (fun msg => emit (Delete msg)).

(** [jump_page > self._source.get_max_pages()], then the reassignment. *)
Definition clamp_to_end (jump_page : Z) : Co E Z :=
  m <- self ;;
  match get_max_pages (_source m) with
  | None => raise TypeError
  | Some max_pages =>
      if jump_page >? max_pages
      then (_ <- ctx_send jump_notice (Some 5) ;;
            ret max_pages)
      else ret jump_page
  end.

(** [number_page]; [outcome] is what [self.bot.wait_for] gives. *)
Definition number_page (_ : Payload) (outcome : wait_outcome) : Co E unit :=
  prompt <- ctx_send jump_prompt None ;;
  try_except
    (msg <- match outcome with
            | Reply msg => ret msg
            | Timeout => raise TimeoutError
            end ;;
     if negb (content_int msg =? 0)          (* if pred.result: *)
     then (jump_page <- clamp_to_end (content_int msg) ;;
           show_checked_page (jump_page - 1) ;;
           cleanup [prompt; msg_id msg])
     else ret tt)
    TimeoutError
    (cleanup [prompt]).

Definition select (_ : Payload) : Co E unit :=
  m <- self ;;
  emit (Invoke "select" (current_page m + 1)).

(** A sequence of presses of the previous and next buttons. *)
Definition navigate (presses : list (nav * Payload)) : Co E unit :=
  for_each presses
    (fun np => match fst np with
               | go_prev => prev (snd np)
               | go_next => next (snd np)
               end).

Definition class_buttons : list (Button E) :=
  [ {| button_emoji := BLACK_LEFT_POINTING_TRIANGLE; skip_if := never_skip;
       action := fun ev => prev (payload ev) |};
    {| button_emoji := CROSS_MARK; skip_if := never_skip;
       action := fun ev => stop_pages_default (payload ev) |};
    {| button_emoji := BLACK_RIGHT_POINTING_TRIANGLE; skip_if := never_skip;
       action := fun ev => next (payload ev) |};
    {| button_emoji := WHITE_HEAVY_CHECK_MARK; skip_if := _cant_select;
       action := fun ev => select (payload ev) |};
    {| button_emoji := LEFT_POINTING_MAGNIFYING_GLASS; skip_if := never_skip;
       action := fun ev => number_page (payload ev) (wait_for ev) |} ].

(** The emoji the menu currently offers. *)
Definition visible (m : Menu E) : list emoji :=
  map button_emoji (buttons class_buttons m).

End Handlers.

End PokeListMenu.

(* ------------------------------------------------------------------ *)
(** ** [class GenericMenu(menus.MenuPages, inherit_buttons=False)] *)

Module GenericMenu.
Import Py Aio Menus.

Section Handlers.
Context {E : Type}.

Definition _skip_single_arrows (m : Menu E) : bool :=
  match get_max_pages (_source m) with
  | None => true
  | Some max_pages => max_pages =? 1
  end.

Definition _skip_double_triangle_buttons (m : Menu E) : bool :=
  match get_max_pages (_source m) with
  | None => true
  | Some max_pages => max_pages <=? 2
  end.

Definition prev (_ : Payload) : Co E unit :=
  m <- self ;;
  if current_page m =? 0
  then (last <- get_max_pages_minus_1 ;; show_page last)
  else show_checked_page (current_page m - 1).

Definition stop_pages_default (_ : Payload) : Co E unit := stop.

Definition next (_ : Payload) : Co E unit :=
  m <- self ;;
  last <- get_max_pages_minus_1 ;;
  if current_page m =? last
  then show_page 0
  else show_checked_page (current_page m + 1).

Definition go_to_first_page (_ : Payload) : Co E unit := show_page 0.

Definition go_to_last_page (_ : Payload) : Co E unit :=
  last <- get_max_pages_minus_1 ;; show_page last.

(** A sequence of presses of the previous and next buttons. *)
Definition navigate (presses : list (nav * Payload)) : Co E unit :=
  for_each presses
    (fun np => match fst np with
               | go_prev => prev (snd np)
               | go_next => next (snd np)
               end).

Definition class_buttons : list (Button E) :=
  [ {| button_emoji := BLACK_LEFT_POINTING_TRIANGLE; skip_if := _skip_single_arrows;
       action := fun ev => prev (payload ev) |};
    {| button_emoji := CROSS_MARK; skip_if := never_skip;
       action := fun ev => stop_pages_default (payload ev) |};
    {| button_emoji := BLACK_RIGHT_POINTING_TRIANGLE; skip_if := _skip_single_arrows;
       action := fun ev => next (payload ev) |};
    {| button_emoji := BLACK_LEFT_POINTING_DOUBLE_TRIANGLE_WITH_VERTICAL_BAR;
       skip_if := _skip_double_triangle_buttons;
       action := fun ev => go_to_first_page (payload ev) |};
    {| button_emoji := BLACK_RIGHT_POINTING_DOUBLE_TRIANGLE_WITH_VERTICAL_BAR;
       skip_if := _skip_double_triangle_buttons;
       action := fun ev => go_to_last_page (payload ev) |} ].

Definition visible (m : Menu E) : list emoji :=
  map button_emoji (buttons class_buttons m).

End Handlers.

End GenericMenu.

(* ------------------------------------------------------------------ *)
(** ** [class PokeList(menus.ListPageSource)] *)

Module PokeList.
Import Py Menus.

(** The keys of a Pokémon dictionary that [format_page] reads.  [id],
    [nickname], [variant] and [url] are read with [dict.get], so they may be
    missing. *)
Record Stats : Type := {
  HP : Z; Attack : Z; Defence : Z; Sp_Atk : Z; Sp_Def : Z; Speed : Z
}.

Record Pokemon : Type := {
  name : string;
  id : option Z;
  sid : Z;
  nickname : option string;
  variant : option string;
  level : Z;
  xp : Z;
  type : list string;
  stats : Stats;
  url : option string
}.

(** The parts of a [discord.Embed] the function sets. *)
Record Embed : Type := {
  title : string;
  description : string;
  thumbnail : option string;
  footer : option string
}.

(** [redbot.core.utils.chat_formatting.box]. *)
Definition box (text lang : string) : string :=
  ("```" ++ lang ++ nl ++ text ++ nl ++ "```")%string.

Definition default_asset (catalog_id : Z) : string :=
  ("https://assets.pokemon.com/assets/cms2/img/pokedex/detail/"
     ++ zfill (str catalog_id) 3 ++ ".png")%string.

Section FormatPage.
(** [menu.cog.calc_xp], [menu.cog.get_name] and [tabulate.tabulate] live
    outside the module.  The translator [_] is taken at the source
    language, where it returns its argument. *)
Variable calc_xp : Z -> Z.
Variable get_name : string -> Z -> string.
Variable tabulate : list (string * Z) -> list string -> string.

(** [__init__]: [super().__init__(entries, per_page=1)]. *)
Definition source (entries : list Pokemon) : PageSource Pokemon :=
  ListPageSource entries.

Definition format_page (self : PageSource Pokemon) (menu : Menu Pokemon)
           (pokemon : Pokemon) : Embed :=
  let stats := stats pokemon in
  let pokestats :=
    tabulate
      [ ("HP", HP stats); ("Attack", Attack stats); ("Defence", Defence stats);
        ("Sp. Atk", Sp_Atk stats); ("Sp. Def", Sp_Def stats); ("Speed", Speed stats) ]
      [ "Stats"; "Value" ] in
  let alias :=
    match nickname pokemon with
    | Some nick => ("**Nickname**: " ++ nick ++ nl)%string
    | None => ""
    end in
  let variant :=
    match truthy_str (variant pokemon) with
    | Some v => ("**Variant**: " ++ v ++ nl)%string
    | None => ""
    end in
  let types := join ", " (type pokemon) in
  let desc :=
    ("**ID**: "
       ++ match truthy_int (id pokemon) with
          | Some i => "#" ++ str i
          | None => "0"
          end
       ++ nl ++ alias
       ++ "**Level**: " ++ str (level pokemon) ++ nl
       ++ "**Type**: " ++ types ++ nl
       ++ "**XP**: " ++ str (xp pokemon) ++ "/" ++ str (calc_xp (level pokemon)) ++ nl
       ++ variant ++ box pokestats "prolog")%string in
  {| title := get_name (name pokemon) (ctx_author menu);
     description := desc;
     thumbnail :=
       match truthy_int (id pokemon) with
       | Some i =>
           Some match truthy_str (url pokemon) with
                | None => default_asset i
                | Some u => u
                end
       | None => None
       end;
     footer :=
       Some ("Pokémon ID: " ++ str (sid pokemon) ++ "/"
               ++ match get_max_pages self with
                  | Some n => str n
                  | None => "None"
                  end)%string |}.

End FormatPage.

End PokeList.

(* ------------------------------------------------------------------ *)
(** ** [class SearchFormat(menus.ListPageSource)] *)

Module SearchFormat.
Import Py Menus.

(** The parts of a [discord.Embed] the function sets. *)
Record Embed : Type := {
  title : string;
  color : Z;
  description : string;
  footer : string
}.

Section FormatPage.
(** What [await menu.ctx.embed_color()] gives. *)
Variable embed_color : Z.

(** [__init__]: [super().__init__(entries, per_page=1)]. *)
Definition source (entries : list string) : PageSource string :=
  ListPageSource entries.

Definition format_page (menu : Menu string) (string_ : string) : Embed :=
  {| title := "Pokemon Search";
     color := embed_color;
     description := string_;
     footer :=
       ("Page " ++ str (current_page menu + 1) ++ "/"
          ++ match get_max_pages (_source menu) with
             | Some n => str n
             | None => "None"
             end)%string |}.

End FormatPage.

End SearchFormat.

(* ------------------------------------------------------------------ *)
(** ** [class PokedexFormat(menus.ListPageSource)] *)

Module PokedexFormat.
Import Py Menus.

(** The keys of a Pokédex record that [format_page] reads; an entry of a
    page is the pair of a position and a record. *)
Record Record_ : Type := {
  name : string;
  amount : Z;
  id : Z
}.

Definition Item : Type := list (Z * Record_).

Record Field : Type := {
  field_name : string;
  field_value : string
}.

(** The parts of a [discord.Embed] the function sets; [description] stays
    unset unless assigned. *)
Record Embed : Type := {
  title : string;
  color : Z;
  description : option string;
  footer : string;
  fields : list Field
}.

(** [embed.add_field(name=..., value=...)]: one more field, at the end. *)
Definition add_field (embed : Embed) (name_ value : string) : Embed :=
  {| title := title embed; color := color embed;
     description := description embed; footer := footer embed;
     fields := fields embed ++ [{| field_name := name_; field_value := value |}] |}.

Definition set_description (embed : Embed) (text : string) : Embed :=
  {| title := title embed; color := color embed;
     description := Some text; footer := footer embed;
     fields := fields embed |}.

Section FormatPage.
(** [await menu.ctx.embed_colour()], [menu.cog.get_name], the identifiers
    [await menu.cog.config.user(menu.ctx.author).pokeids()] returns, and the
    menu's [len_poke] attribute.  The [print(item)] at the top of the function
    writes to the console and nothing else. *)
Variable embed_colour : Z.
Variable get_name : string -> Z -> string.
Variable Key : Type.
Variable pokeids : Z -> list Key.
Variable len_poke : Z.

(** [__init__]: [super().__init__(entries, per_page=1)]. *)
Definition source (entries : list Item) : PageSource Item :=
  ListPageSource entries.

(** The body of [for pokemon in item:]. *)
Definition add_pokemon (menu : Menu Item) (embed : Embed) (pokemon : Z * Record_) : Embed :=
  let msg :=
    if amount (snd pokemon) >? 0
    then (str (amount (snd pokemon)) ++ " caught! ✅")%string
    else "Not caught yet! ❌" in
  add_field embed
    (get_name (name (snd pokemon)) (ctx_author menu) ++ " " ++ str (id (snd pokemon)))%string
    msg.

Definition format_page (menu : Menu Item) (item : Item) : result Embed :=
  match getitem item 0 with
  | Raise e => Raise e
  | Ok first =>
      match getitem item (-1) with
      | Raise e => Raise e
      | Ok last =>
          let embed :=
            {| title := "Pokédex"; color := embed_colour; description := None;
               footer := ("Showing " ++ str (fst first) ++ "-" ++ str (fst last)
                            ++ " of " ++ str len_poke ++ ".")%string;
               fields := [] |} in
          let embed := fold_left (add_pokemon menu) item embed in
          let embed :=
            if current_page menu =? 0
            then set_description embed
                   ("You've caught " ++ str (len (pokeids (ctx_author menu)))
                      ++ " out of " ++ str len_poke ++ " pokémon.")%string
            else embed in
          Ok embed
      end
  end.

End FormatPage.

End PokedexFormat.

(* ------------------------------------------------------------------ *)
(** ** Sample menus, for the concrete runs below *)

Module Demo.
Import Py Menus.

(** A running menu opened by user 7 on message 100; the bot has owners 1 and 2. *)
Definition menu_on {E} (src : PageSource E) (invoker shown_user page : Z) : Menu E :=
  {| _source := src; ctx_author := invoker; user := shown_user;
     owner_ids := [1; 2]; _author_id := invoker; message_id := 100;
     current_page := page; _running := true |}.

Definition list_menu (entries : list string) (page : Z) : Menu string :=
  menu_on (ListPageSource entries) 7 7 page.

Definition world0 : World := {| trace := []; next_id := 500 |}.

Definition press (who : Z) (e : emoji) : Payload :=
  {| payload_message_id := 100; payload_user_id := who; payload_emoji := e |}.

Definition event (who : Z) (e : emoji) (o : wait_outcome) : Event :=
  {| payload := press who e; wait_for := o |}.

Definition reply (n : Z) : wait_outcome := Reply {| msg_id := 900; content_int := n |}.

Definition pikachu : PokeList.Pokemon :=
  {| PokeList.name := "Pikachu"; PokeList.id := Some 25; PokeList.sid := 3;
     PokeList.nickname := None; PokeList.variant := None;
     PokeList.level := 5; PokeList.xp := 10; PokeList.type := ["Electric"];
     PokeList.stats := {| PokeList.HP := 35; PokeList.Attack := 55;
                          PokeList.Defence := 40; PokeList.Sp_Atk := 50;
                          PokeList.Sp_Def := 50; PokeList.Speed := 90 |};
     PokeList.url := None |}.

(** The same record with a sprite of its own, and one without a catalog id. *)
Definition with_url (u : string) (p : PokeList.Pokemon) : PokeList.Pokemon :=
  {| PokeList.name := PokeList.name p; PokeList.id := PokeList.id p;
     PokeList.sid := PokeList.sid p; PokeList.nickname := PokeList.nickname p;
     PokeList.variant := PokeList.variant p; PokeList.level := PokeList.level p;
     PokeList.xp := PokeList.xp p; PokeList.type := PokeList.type p;
     PokeList.stats := PokeList.stats p; PokeList.url := Some u |}.

Definition without_id (p : PokeList.Pokemon) : PokeList.Pokemon :=
  {| PokeList.name := PokeList.name p; PokeList.id := None;
     PokeList.sid := PokeList.sid p; PokeList.nickname := PokeList.nickname p;
     PokeList.variant := PokeList.variant p; PokeList.level := PokeList.level p;
     PokeList.xp := PokeList.xp p; PokeList.type := PokeList.type p;
     PokeList.stats := PokeList.stats p; PokeList.url := PokeList.url p |}.

(** Stand-ins for the cog's [calc_xp] and [get_name] and for [tabulate]. *)
Definition render (entries : list PokeList.Pokemon) (p : PokeList.Pokemon)
  : PokeList.Embed :=
  PokeList.format_page (fun lvl => lvl * 100) (fun n _ => n) (fun _ _ => "")
    (PokeList.source entries) (menu_on (PokeList.source entries) 7 7 0) p.

Definition three : list string := ["bulbasaur"; "ivysaur"; "venusaur"].
Definition five : list string := ["a"; "b"; "c"; "d"; "e"].

(** A menu whose source does not know how many pages it has. *)
Definition endless : PageSource string :=
  {| get_max_pages := None; get_page := fun _ => Ok "page" |}.

Definition dex_page : PokedexFormat.Item :=
  [ (1, {| PokedexFormat.name := "Bulbasaur"; PokedexFormat.amount := 2;
           PokedexFormat.id := 1 |});
    (2, {| PokedexFormat.name := "Ivysaur"; PokedexFormat.amount := 0;
           PokedexFormat.id := 2 |}) ].

Definition dex_render (page : Z) (item : PokedexFormat.Item) :=
  PokedexFormat.format_page 0 (fun n _ => n) Z (fun _ => [1; 4; 7]) 151
    (menu_on (PokedexFormat.source [item]) 7 7 page) item.

End Demo.

(* ------------------------------------------------------------------ *)
(** ** The page arithmetic the handlers are compared with *)

Module PageIndex.

(** Wraps to 0 from the last page, otherwise advances by one. *)
Definition next (total index : Z) : Z :=
  if index =? total - 1 then 0 else index + 1.

(** Wraps to the last page from 0, otherwise goes back by one. *)
Definition previous (total index : Z) : Z :=
  if index =? 0 then total - 1 else index - 1.

Definition move (total : Z) (a : Menus.nav) (index : Z) : Z :=
  match a with
  | Menus.go_prev => previous total index
  | Menus.go_next => next total index
  end.

End PageIndex.

(* ------------------------------------------------------------------ *)
(** ** What a well-behaved run leaves in the trace *)

Module Runs.
Import Py Menus.

(** With [total] pages: a page that is shown is one of them, and an id given
    to the select command is a position from 1 to [total]. *)
Definition effect_ok (total : Z) (ef : effect) : Prop :=
  match ef with
  | Edit page_number => 0 <= page_number < total
  | Invoke _ _id => 1 <= _id <= total
  | _ => True
  end.

(** The menu sits on one of the pages of the list it was opened on, and the
    trace is well-behaved. *)
Definition on_a_page {E} (entries : list E) (s : State E) : Prop :=
  _source (fst s) = ListPageSource entries
  /\ 0 <= current_page (fst s) < len entries
  /\ Forall (effect_ok (len entries)) (trace (snd s)).

(** [k] presses of the next button. *)
Definition presses (a : nav) (p : Payload) (k : nat) : list (nav * Payload) :=
  repeat (a, p) k.

Definition is_invoke (ef : effect) : bool :=
  match ef with
  | Invoke _ _ => true
  | _ => false
  end.

(** A coroutine keeps [K] when the state it ends in, returning or raising,
    satisfies [K] whenever the state it started in did. *)
Definition keeps {E A} (K : State E -> Prop) (c : Co E A) : Prop :=
  forall s, K s -> K (snd (c s)).

(** Same invoker and configured user as in [s0], and no command invoked
    since [s0]. *)
Definition no_invoke_since {E} (s0 s : State E) : Prop :=
  ctx_author (fst s) = ctx_author (fst s0)
  /\ user (fst s) = user (fst s0)
  /\ filter is_invoke (trace (snd s)) = filter is_invoke (trace (snd s0)).

(** The menu with the running flag cleared, all else equal. *)
Definition stopped {E} (s : State E) : State E := (set_running false (fst s), snd s).

End Runs.

(* ------------------------------------------------------------------ *)
(** * Properties *)

Import Py Aio Menus.

(** Runs the leading [m <- self ;; ...] of a handler. *)
Ltac read_self := unfold bind at 1, self at 1; cbn [fst snd].

(** Membership in a trace built by appending. *)
Ltac in_trace := cbn; rewrite !in_app_iff; cbn [In]; tauto.

(** ** List indexing and page display *)

Lemma len_nonneg {A} (l : list A) : 0 <= len l.
Proof. unfold len; lia. Qed.

Lemma getitem_in_range {A} (l : list A) (i : Z) :
  0 <= i < len l -> exists x, getitem l i = Ok x.
Proof.
  intros Hi. unfold getitem, len in *.
  destruct (i <? 0) eqn:Hneg; [apply Z.ltb_lt in Hneg; lia|].
  rewrite Hneg.
  destruct (nth_error l (Z.to_nat i)) as [x|] eqn:Hnth; [now exists x|].
  apply nth_error_None in Hnth. lia.
Qed.

Lemma getitem_nil {A} (i : Z) : getitem (@nil A) i = Raise IndexError.
Proof.
  unfold getitem, len; cbn.
  rewrite Z.add_0_r.
  destruct (i <? 0) eqn:Hneg.
  - now rewrite Hneg.
  - rewrite Hneg. now destruct (Z.to_nat i).
Qed.

Section PageDisplay.
Context {E : Type}.
Implicit Types (m : Menu E) (w : World).

Lemma show_page_ok m w n x :
  get_page (_source m) n = Ok x ->
  show_page n (m, w) = (Ok tt, (set_current_page n m, record_effect (Edit n) w)).
Proof.
  intros Hx. unfold show_page, bind, self, lift, modify, emit; cbn. now rewrite Hx.
Qed.

Lemma show_page_raise m w n e :
  get_page (_source m) n = Raise e ->
  show_page n (m, w) = (Raise e, (m, w)).
Proof.
  intros Hx. unfold show_page, bind, self, lift; cbn. now rewrite Hx.
Qed.

Lemma show_page_list m w entries n :
  _source m = ListPageSource entries ->
  0 <= n < len entries ->
  show_page n (m, w) = (Ok tt, (set_current_page n m, record_effect (Edit n) w)).
Proof.
  intros Hs Hn. destruct (getitem_in_range entries n Hn) as [x Hx].
  apply show_page_ok with (x := x). now rewrite Hs.
Qed.

Lemma show_checked_page_inside m w entries n :
  _source m = ListPageSource entries ->
  0 <= n < len entries ->
  show_checked_page n (m, w)
  = (Ok tt, (set_current_page n m, record_effect (Edit n) w)).
Proof.
  intros Hs Hn. unfold show_checked_page, bind, self, try_except; cbn [fst snd].
  assert (Hmax : get_max_pages (_source m) = Some (len entries)) by now rewrite Hs.
  rewrite Hmax.
  replace (len entries >? n) with true by (symmetry; apply Z.gtb_lt; lia).
  replace (n >=? 0) with true by (symmetry; apply Z.geb_le; lia).
  cbn [andb]. now rewrite (show_page_list m w entries n Hs Hn).
Qed.

Lemma show_checked_page_outside m w max_pages n :
  get_max_pages (_source m) = Some max_pages ->
  ~ 0 <= n < max_pages ->
  show_checked_page n (m, w) = (Ok tt, (m, w)).
Proof.
  intros Hs Hn. unfold show_checked_page, bind, self, try_except; cbn [fst snd].
  rewrite Hs.
  destruct (max_pages >? n) eqn:H1; destruct (n >=? 0) eqn:H2; cbn [andb]; try reflexivity.
  apply Z.gtb_lt in H1. apply Z.geb_le in H2. lia.
Qed.

Lemma get_max_pages_minus_1_list m w entries :
  _source m = ListPageSource entries ->
  get_max_pages_minus_1 (m, w) = (Ok (len entries - 1), (m, w)).
Proof.
  intros Hs. unfold get_max_pages_minus_1, bind, self; cbn [fst snd]. now rewrite Hs.
Qed.

End PageDisplay.

(** ** Previous and next *)

Lemma PageIndex_move_in_range total a index :
  1 <= total -> 0 <= index < total -> 0 <= PageIndex.move total a index < total.
Proof.
  intros Ht Hi. destruct a; cbn; unfold PageIndex.previous, PageIndex.next.
  - destruct (index =? 0) eqn:H0; [lia | apply Z.eqb_neq in H0; lia].
  - destruct (index =? total - 1) eqn:H0; [lia | apply Z.eqb_neq in H0; lia].
Qed.

Section WrapAround.
Context {E : Type}.
Variable entries : list E.
Hypothesis nonempty : 1 <= len entries.
Implicit Types (m : Menu E) (w : World) (p : Payload).

Let shown (k : Z) m w : result unit * State E :=
  (Ok tt, (set_current_page k m, record_effect (Edit k) w)).

Lemma PokeListMenu_next_list m w p :
  _source m = ListPageSource entries ->
  0 <= current_page m < len entries ->
  PokeListMenu.next p (m, w) = shown (PageIndex.next (len entries) (current_page m)) m w.
Proof.
  intros Hs Hc. unfold PokeListMenu.next, PageIndex.next, shown.
  read_self.
  unfold bind at 1. rewrite (get_max_pages_minus_1_list m w entries Hs).
  destruct (current_page m =? len entries - 1) eqn:Hlast.
  - apply show_page_list with (entries := entries); [assumption | lia].
  - apply Z.eqb_neq in Hlast.
    apply show_checked_page_inside with (entries := entries); [assumption | lia].
Qed.

Lemma PokeListMenu_prev_list m w p :
  _source m = ListPageSource entries ->
  0 <= current_page m < len entries ->
  PokeListMenu.prev p (m, w) = shown (PageIndex.previous (len entries) (current_page m)) m w.
Proof.
  intros Hs Hc. unfold PokeListMenu.prev, PageIndex.previous, shown.
  read_self.
  destruct (current_page m =? 0) eqn:Hfirst.
  - unfold bind. rewrite (get_max_pages_minus_1_list m w entries Hs).
    apply show_page_list with (entries := entries); [assumption | lia].
  - apply Z.eqb_neq in Hfirst.
    apply show_checked_page_inside with (entries := entries); [assumption | lia].
Qed.

(** The two classes carry the same text for both handlers. *)
Lemma GenericMenu_next_same p : @GenericMenu.next E p = PokeListMenu.next p.
Proof. reflexivity. Qed.

Lemma GenericMenu_prev_same p : @GenericMenu.prev E p = PokeListMenu.prev p.
Proof. reflexivity. Qed.

Lemma GenericMenu_navigate_same presses :
  @GenericMenu.navigate E presses = PokeListMenu.navigate presses.
Proof. reflexivity. Qed.

Lemma PokeListMenu_navigate_list presses : forall m w,
  _source m = ListPageSource entries ->
  0 <= current_page m < len entries ->
  exists m' w',
    PokeListMenu.navigate presses (m, w) = (Ok tt, (m', w'))
    /\ _source m' = ListPageSource entries
    /\ current_page m'
       = fold_left (fun i np => PageIndex.move (len entries) (fst np) i)
                   presses (current_page m)
    /\ 0 <= current_page m' < len entries.
Proof.
  induction presses as [|[a p] rest IH]; intros m w Hs Hc.
  - exists m, w. cbn. auto.
  - pose proof (PageIndex_move_in_range (len entries) a (current_page m) nonempty Hc) as Hk.
    set (k := PageIndex.move (len entries) a (current_page m)) in *.
    destruct (IH (set_current_page k m) (record_effect (Edit k) w) Hs Hk)
      as (m' & w' & Hrun & Hs' & Hfold & Hc').
    exists m', w'. repeat split; try assumption; try lia.
    unfold PokeListMenu.navigate in *. cbn [for_each fst snd].
    unfold bind at 1. subst k.
    destruct a; cbn [PageIndex.move] in *;
      [ rewrite (PokeListMenu_prev_list m w p Hs Hc)
      | rewrite (PokeListMenu_next_list m w p Hs Hc) ];
      exact Hrun.
Qed.

End WrapAround.

(** C1.  With at least one page and the index on a page, the next handler
    shows page 0 from the last page and the following page otherwise, the
    previous handler shows the last page from page 0 and the preceding page
    otherwise, in both menu classes; and after any sequence of presses of the
    two buttons every handler has returned and the index is still on a page. *)
Theorem C1_next_prev_keep_index_in_range
    (E : Type) (entries : list E) (m : Menu E) (w : World) (p : Payload)
    (presses : list (nav * Payload)) :
  _source m = ListPageSource entries ->
  1 <= len entries ->
  0 <= current_page m < len entries ->
  let total := len entries in
  let shown k := (Ok tt, (set_current_page k m, record_effect (Edit k) w)) in
  PokeListMenu.next p (m, w) = shown (PageIndex.next total (current_page m))
  /\ PokeListMenu.prev p (m, w) = shown (PageIndex.previous total (current_page m))
  /\ GenericMenu.next p (m, w) = shown (PageIndex.next total (current_page m))
  /\ GenericMenu.prev p (m, w) = shown (PageIndex.previous total (current_page m))
  /\ (fst (PokeListMenu.navigate presses (m, w)) = Ok tt
      /\ 0 <= current_page (fst (snd (PokeListMenu.navigate presses (m, w)))) < total)
  /\ (fst (GenericMenu.navigate presses (m, w)) = Ok tt
      /\ 0 <= current_page (fst (snd (GenericMenu.navigate presses (m, w)))) < total).
Proof.
  intros Hs Hne Hc total shown.
  assert (Hnav : fst (PokeListMenu.navigate presses (m, w)) = Ok tt
                 /\ 0 <= current_page (fst (snd (PokeListMenu.navigate presses (m, w)))) < total).
  { destruct (PokeListMenu_navigate_list entries Hne presses m w Hs Hc)
      as (m' & w' & Hrun & _ & _ & Hc').
    rewrite Hrun. cbn [fst snd]. split; [reflexivity | exact Hc']. }
  repeat split; try apply Hnav.
  - apply PokeListMenu_next_list; assumption.
  - apply PokeListMenu_prev_list; assumption.
  - rewrite GenericMenu_next_same. apply PokeListMenu_next_list; assumption.
  - rewrite GenericMenu_prev_same. apply PokeListMenu_prev_list; assumption.
Qed.

Lemma C1_witness :
  let m := Demo.list_menu Demo.three 2 in
  let p := Demo.press 7 BLACK_RIGHT_POINTING_TRIANGLE in
  current_page (fst (snd (PokeListMenu.next p (m, Demo.world0)))) = 0
  /\ current_page (fst (snd (GenericMenu.prev p (Demo.list_menu Demo.three 0, Demo.world0)))) = 2.
Proof.
  split.
  - pose proof (C1_next_prev_keep_index_in_range string Demo.three
                  (Demo.list_menu Demo.three 2) Demo.world0
                  (Demo.press 7 BLACK_RIGHT_POINTING_TRIANGLE) []
                  eq_refl ltac:(cbv; discriminate) ltac:(cbv; split; [discriminate | reflexivity]))
      as (Hnext & _).
    cbv zeta. rewrite Hnext. reflexivity.
  - pose proof (C1_next_prev_keep_index_in_range string Demo.three
                  (Demo.list_menu Demo.three 0) Demo.world0
                  (Demo.press 7 BLACK_RIGHT_POINTING_TRIANGLE) []
                  eq_refl ltac:(cbv; discriminate) ltac:(cbv; split; [discriminate | reflexivity]))
      as (_ & _ & _ & Hprev & _).
    cbv zeta. rewrite Hprev. reflexivity.
Defined.

(** ** Jumping to a page *)

Section Jump.
Context {E : Type}.
Implicit Types (m : Menu E) (w : World) (p : Payload) (msg : Message).

Let prompted w : World := sent PokeListMenu.jump_prompt None w.

Lemma number_page_timeout m w p :
  PokeListMenu.number_page p Timeout (m, w)
  = (Ok tt, (m, record_effect (Delete (next_id w)) (prompted w))).
Proof. reflexivity. Qed.

Lemma number_page_zero m w p msg :
  content_int msg = 0 ->
  PokeListMenu.number_page p (Reply msg) (m, w) = (Ok tt, (m, prompted w)).
Proof.
  intros H0. unfold PokeListMenu.number_page, bind, ctx_send, try_except, ret.
  cbn [fst snd]. rewrite H0. reflexivity.
Qed.

Lemma clamp_to_end_known m w total t :
  get_max_pages (_source m) = Some total ->
  PokeListMenu.clamp_to_end t (m, w)
  = if t >? total
    then (Ok total, (m, sent PokeListMenu.jump_notice (Some 5) w))
    else (Ok t, (m, w)).
Proof.
  intros Hmax. unfold PokeListMenu.clamp_to_end, bind, self. cbn [fst snd].
  rewrite Hmax. now destruct (t >? total).
Qed.

Lemma number_page_reply m w p msg total m' w' :
  content_int msg <> 0 ->
  get_max_pages (_source m) = Some total ->
  (if content_int msg >? total
   then show_checked_page (total - 1)
          (m, sent PokeListMenu.jump_notice (Some 5) (prompted w))
   else show_checked_page (content_int msg - 1) (m, prompted w))
  = (Ok tt, (m', w')) ->
  PokeListMenu.number_page p (Reply msg) (m, w)
  = (Ok tt, (m', record_effect (Delete (msg_id msg))
                   (record_effect (Delete (next_id w)) w'))).
Proof.
  intros Hnz Hmax Hshow.
  unfold PokeListMenu.number_page, bind, ctx_send, try_except, ret.
  cbn [fst snd].
  apply Z.eqb_neq in Hnz. rewrite Hnz. cbn [negb].
  fold (prompted w).
  rewrite (clamp_to_end_known m (prompted w) total (content_int msg) Hmax).
  destruct (content_int msg >? total); rewrite Hshow; reflexivity.
Qed.

End Jump.

(** C2 as the claim words it, at a menu of three pages showing the last one
    and the reply -1: the target is below 1, yet the handler returns with the
    index still 2, not 0. *)
Lemma C2_counterexample :
  let r := PokeListMenu.number_page
             (Demo.press 7 LEFT_POINTING_MAGNIFYING_GLASS) (Demo.reply (-1))
             (Demo.list_menu Demo.three 2, Demo.world0) in
  outcome r = Ok tt
  /\ current_page (menu_after r) = 2
  /\ current_page (menu_after r) <> 0.
Proof. cbv zeta. vm_compute. repeat split; discriminate. Qed.

(** C2, amended.  With at least one page, a jump with numeric target [t]
    returns without raising; it sets the index to [t - 1] when [t] is in
    [1, total]; to [total - 1], after sending the notice, when [t > total];
    and leaves the menu as it was when [t < 1]. *)
Theorem C2_jump_sets_index
    (E : Type) (entries : list E) (m : Menu E) (w : World) (p : Payload) (msg : Message) :
  _source m = ListPageSource entries ->
  1 <= len entries ->
  let total := len entries in
  let t := content_int msg in
  let r := PokeListMenu.number_page p (Reply msg) (m, w) in
  outcome r = Ok tt
  /\ (1 <= t <= total -> menu_after r = set_current_page (t - 1) m)
  /\ (total < t ->
      menu_after r = set_current_page (total - 1) m
      /\ In (Send (next_id w + 1) PokeListMenu.jump_notice (Some 5))
            (trace (world_after r)))
  /\ (t < 1 -> menu_after r = m).
Proof.
  intros Hs Hne total t r.
  assert (Hmax : get_max_pages (_source m) = Some total) by now rewrite Hs.
  set (w1 := sent PokeListMenu.jump_prompt None w).
  destruct (Z.eq_dec t 0) as [H0|Hnz].
  - (* the reply 0 *)
    subst r. rewrite (number_page_zero m w p msg H0).
    unfold outcome, menu_after; cbn [fst snd].
    repeat split; try reflexivity; intros; lia.
  - destruct (t >? total) eqn:Hgt.
    + (* beyond the end *)
      apply Z.gtb_lt in Hgt.
      set (w2 := sent PokeListMenu.jump_notice (Some 5) w1).
      assert (Hrun : r = (Ok tt, (set_current_page (total - 1) m,
                                  record_effect (Delete (msg_id msg))
                                    (record_effect (Delete (next_id w))
                                       (record_effect (Edit (total - 1)) w2))))).
      { subst r. apply number_page_reply with (total := total); try assumption.
        fold t. replace (t >? total) with true by (symmetry; apply Z.gtb_lt; lia).
        apply show_checked_page_inside with (entries := entries); [assumption|].
        subst total; lia. }
      rewrite Hrun. unfold outcome, menu_after, world_after; cbn [fst snd].
      repeat split; try reflexivity; try (intros; lia).
      cbn [record_effect trace w2 sent w1 next_id].
      rewrite !in_app_iff. cbn [In]. tauto.
    + assert (Hle : t <= total) by (rewrite Z.gtb_ltb in Hgt; apply Z.ltb_ge in Hgt; lia).
      destruct (Z_lt_dec t 1) as [Hlow|Hin].
      * (* below the first page *)
        assert (Hrun : r = (Ok tt, (m, record_effect (Delete (msg_id msg))
                                         (record_effect (Delete (next_id w)) w1)))).
        { subst r. apply number_page_reply with (total := total); try assumption.
          fold t. rewrite Hgt.
          apply show_checked_page_outside with (max_pages := total); [assumption | lia]. }
        rewrite Hrun. unfold outcome, menu_after; cbn [fst snd].
        repeat split; try reflexivity; intros; lia.
      * (* on a page *)
        assert (Hrun : r = (Ok tt, (set_current_page (t - 1) m,
                                    record_effect (Delete (msg_id msg))
                                      (record_effect (Delete (next_id w))
                                         (record_effect (Edit (t - 1)) w1))))).
        { subst r. apply number_page_reply with (total := total); try assumption.
          fold t. rewrite Hgt.
          apply show_checked_page_inside with (entries := entries); [assumption|].
          subst total; lia. }
        rewrite Hrun. unfold outcome, menu_after; cbn [fst snd].
        repeat split; try reflexivity; intros; lia.
Qed.

Lemma C2_witness :
  let r := PokeListMenu.number_page
             (Demo.press 7 LEFT_POINTING_MAGNIFYING_GLASS) (Demo.reply 10)
             (Demo.list_menu Demo.five 0, Demo.world0) in
  1 <= len Demo.five
  /\ outcome r = Ok tt
  /\ menu_after r = set_current_page 4 (Demo.list_menu Demo.five 0).
Proof.
  cbv zeta.
  pose proof (C2_jump_sets_index string Demo.five (Demo.list_menu Demo.five 0) Demo.world0
                (Demo.press 7 LEFT_POINTING_MAGNIFYING_GLASS)
                {| msg_id := 900; content_int := 10 |}
                eq_refl ltac:(cbv; discriminate)) as (Hok & _ & Hbeyond & _).
  split; [cbv; discriminate|].
  split; [exact Hok|].
  apply Hbeyond. reflexivity.
Defined.

(** ** Which buttons a menu offers *)

(** C3 as the claim words it, at a generic menu over an empty list: the page
    count is 0, which is at most 1, yet [_skip_single_arrows] is false and
    the previous and next buttons are offered. *)
Lemma C3_counterexample :
  let m := Demo.list_menu [] 0 in
  get_max_pages (_source m) = Some 0
  /\ GenericMenu._skip_single_arrows m = false
  /\ GenericMenu.visible m
     = [BLACK_LEFT_POINTING_TRIANGLE; CROSS_MARK; BLACK_RIGHT_POINTING_TRIANGLE].
Proof. cbv zeta. repeat split. Qed.

(** C3, amended.  The buttons a generic menu offers depend on the page count
    alone: with an unknown count every page-moving button is left out; with
    exactly one page previous and next are left out (and so are first and
    last); with any other count of at most 2 previous and next are offered and
    first and last are left out; with more than 2 pages all five are offered.
    The stop button is always offered. *)
Theorem C3_generic_menu_buttons (E : Type) (m : Menu E) :
  GenericMenu.visible m =
  match get_max_pages (_source m) with
  | None => [CROSS_MARK]
  | Some total =>
      if total =? 1 then [CROSS_MARK]
      else if total <=? 2
           then [BLACK_LEFT_POINTING_TRIANGLE; CROSS_MARK; BLACK_RIGHT_POINTING_TRIANGLE]
           else [BLACK_LEFT_POINTING_TRIANGLE; CROSS_MARK; BLACK_RIGHT_POINTING_TRIANGLE;
                 BLACK_LEFT_POINTING_DOUBLE_TRIANGLE_WITH_VERTICAL_BAR;
                 BLACK_RIGHT_POINTING_DOUBLE_TRIANGLE_WITH_VERTICAL_BAR]
  end.
Proof.
  unfold GenericMenu.visible, buttons, GenericMenu.class_buttons.
  cbn [filter skip_if never_skip negb].
  unfold GenericMenu._skip_single_arrows, GenericMenu._skip_double_triangle_buttons.
  destruct (get_max_pages (_source m)) as [total|]; [|reflexivity].
  destruct (total =? 1) eqn:H1.
  - apply Z.eqb_eq in H1. subst total. reflexivity.
  - destruct (total <=? 2); reflexivity.
Qed.

(** C10.  Whatever the page source says about the number of pages (one page,
    many, or nothing at all), a Pokémon-detail menu offers previous, stop,
    next and jump; the select button is the only conditional one, offered
    exactly when the invoking user is the menu's configured user. *)
Theorem C10_poke_list_menu_buttons (E : Type) (m : Menu E) :
  PokeListMenu.visible m =
  if ctx_author m =? user m
  then [BLACK_LEFT_POINTING_TRIANGLE; CROSS_MARK; BLACK_RIGHT_POINTING_TRIANGLE;
        WHITE_HEAVY_CHECK_MARK; LEFT_POINTING_MAGNIFYING_GLASS]
  else [BLACK_LEFT_POINTING_TRIANGLE; CROSS_MARK; BLACK_RIGHT_POINTING_TRIANGLE;
        LEFT_POINTING_MAGNIFYING_GLASS].
Proof.
  unfold PokeListMenu.visible, buttons, PokeListMenu.class_buttons.
  cbn [filter skip_if never_skip negb].
  unfold PokeListMenu._cant_select.
  destruct (ctx_author m =? user m); reflexivity.
Qed.

(** ** Select *)

(** C8 as the claim words it, on the first page of a menu whose invoker looks
    at their own list: the index is 0 and the select command is invoked with
    [_id = 1]. *)
Lemma C8_counterexample :
  let m := Demo.list_menu Demo.three 0 in
  let r := PokeListMenu.select (Demo.press 7 WHITE_HEAVY_CHECK_MARK) (m, Demo.world0) in
  current_page m = 0
  /\ trace (world_after r) = [Invoke "select" 1].
Proof. cbv zeta. split; reflexivity. Qed.

(** C8, amended.  The select button is offered exactly when the invoking user
    is the menu's configured user; pressed, it invokes the select command
    with the current index plus one and changes nothing of the menu. *)
Theorem C8_select_forwards_next_index (E : Type) (m : Menu E) (w : World) (p : Payload) :
  (In WHITE_HEAVY_CHECK_MARK (PokeListMenu.visible m) <-> ctx_author m = user m)
  /\ PokeListMenu.select p (m, w)
     = (Ok tt, (m, record_effect (Invoke "select" (current_page m + 1)) w)).
Proof.
  split; [|reflexivity].
  unfold PokeListMenu.visible, buttons, PokeListMenu.class_buttons.
  cbn [filter skip_if never_skip negb].
  unfold PokeListMenu._cant_select.
  destruct (ctx_author m =? user m) eqn:Hsame; cbn.
  - apply Z.eqb_eq in Hsame. intuition congruence.
  - apply Z.eqb_neq in Hsame. intuition congruence.
Qed.

(** ** Who may act, and stopping *)

Section Delivery.
Context {E : Type}.
Variable class_buttons : list (Button E).
Implicit Types (s : State E) (ev : Event).

Lemma reaction_check_stranger (m : Menu E) (p : Payload) :
  payload_user_id p <> _author_id m ->
  ~ In (payload_user_id p) (owner_ids m) ->
  reaction_check class_buttons m p = false.
Proof.
  intros Hauthor Howner. unfold reaction_check.
  destruct (payload_message_id p =? message_id m); [|reflexivity].
  cbn [negb].
  replace (existsb (Z.eqb (payload_user_id p)) (owner_ids m ++ [_author_id m]))
    with false; [reflexivity|].
  symmetry. apply not_true_is_false. intros Hex.
  apply existsb_exists in Hex. destruct Hex as (x & Hin & Heq).
  apply Z.eqb_eq in Heq. subst x.
  apply in_app_or in Hin. destruct Hin as [Hin|[Hin|[]]]; [tauto | congruence].
Qed.

Lemma dispatch_unchecked s ev :
  reaction_check class_buttons (fst s) (payload ev) = false ->
  dispatch class_buttons s ev = s.
Proof.
  intros Hcheck. unfold dispatch. rewrite Hcheck.
  now rewrite andb_false_r.
Qed.

Lemma dispatch_stopped s ev :
  _running (fst s) = false -> dispatch class_buttons s ev = s.
Proof. intros Hstop. unfold dispatch. now rewrite Hstop. Qed.

Lemma run_stopped evs : forall s,
  _running (fst s) = false -> run class_buttons s evs = s.
Proof.
  induction evs as [|ev rest IH]; intros s Hstop; [reflexivity|].
  unfold run in *. cbn [fold_left].
  rewrite (dispatch_stopped s ev Hstop). now apply IH.
Qed.

(** A delivered press of a button that is found and whose handler is
    [Menu.stop]. *)
Lemma dispatch_stop s ev button :
  _running (fst s) = true ->
  reaction_check class_buttons (fst s) (payload ev) = true ->
  lookup_button class_buttons (fst s) (payload_emoji (payload ev)) = Some button ->
  action button ev = stop ->
  dispatch class_buttons s ev = (set_running false (fst s), snd s).
Proof.
  intros Hrun Hcheck Hfind Hact. unfold dispatch. rewrite Hrun, Hcheck. cbn [andb].
  unfold update, bind, self. cbn [fst snd]. rewrite Hfind, Hrun. cbn [negb].
  unfold try_except_all. rewrite Hact. reflexivity.
Qed.

End Delivery.

Lemma PokeListMenu_cross_mark {E} (m : Menu E) :
  exists button,
    lookup_button PokeListMenu.class_buttons m CROSS_MARK = Some button
    /\ forall ev, action button ev = stop.
Proof.
  eexists. split; [reflexivity|]. intros ev. reflexivity.
Qed.

Lemma GenericMenu_cross_mark {E} (m : Menu E) :
  exists button,
    lookup_button GenericMenu.class_buttons m CROSS_MARK = Some button
    /\ forall ev, action button ev = stop.
Proof.
  unfold lookup_button, buttons, GenericMenu.class_buttons.
  cbn [filter skip_if never_skip negb].
  destruct (GenericMenu._skip_single_arrows m);
    destruct (GenericMenu._skip_double_triangle_buttons m);
    cbn; eexists; (split; [reflexivity|]); intros ev; reflexivity.
Qed.

(** C4.  In either menu class, a reaction from a user who is neither the
    menu's author nor one of the bot's owners fails [reaction_check], and the
    menu and the outside are exactly as before: no page is shown, no message
    sent, no error reported. *)
Theorem C4_stranger_is_ignored (E : Type) (s : State E) (ev : Event) :
  payload_user_id (payload ev) <> _author_id (fst s) ->
  ~ In (payload_user_id (payload ev)) (owner_ids (fst s)) ->
  (reaction_check PokeListMenu.class_buttons (fst s) (payload ev) = false
   /\ dispatch PokeListMenu.class_buttons s ev = s)
  /\ (reaction_check GenericMenu.class_buttons (fst s) (payload ev) = false
      /\ dispatch GenericMenu.class_buttons s ev = s).
Proof.
  intros Hauthor Howner.
  split; (split; [|apply dispatch_unchecked]);
    apply reaction_check_stranger; assumption.
Qed.

Lemma C4_witness :
  let s := (Demo.list_menu Demo.three 1, Demo.world0) in
  let ev := Demo.event 42 BLACK_RIGHT_POINTING_TRIANGLE Timeout in
  dispatch PokeListMenu.class_buttons s ev = s
  /\ dispatch GenericMenu.class_buttons s ev = s.
Proof.
  cbv zeta.
  pose proof (C4_stranger_is_ignored string
                (Demo.list_menu Demo.three 1, Demo.world0)
                (Demo.event 42 BLACK_RIGHT_POINTING_TRIANGLE Timeout)
                ltac:(cbv; discriminate)
                ltac:(cbv; intros [H|[H|[]]]; discriminate))
    as ((_ & Hpoke) & (_ & Hgen)).
  split; assumption.
Defined.

(** C5.  In either menu class, a delivered press of the stop button on a
    running menu leaves the menu not running, with the index and the trace of
    the outside as they were; and whatever events follow, in any number, the
    whole state stays what it was right after the stop. *)
Theorem C5_stop_is_terminal
    (E : Type) (class_buttons : list (Button E)) (s : State E) (ev : Event)
    (later : list Event) :
  class_buttons = PokeListMenu.class_buttons \/ class_buttons = GenericMenu.class_buttons ->
  _running (fst s) = true ->
  reaction_check class_buttons (fst s) (payload ev) = true ->
  payload_emoji (payload ev) = CROSS_MARK ->
  let s' := dispatch class_buttons s ev in
  _running (fst s') = false
  /\ current_page (fst s') = current_page (fst s)
  /\ snd s' = snd s
  /\ run class_buttons s' later = s'.
Proof.
  intros Hcls Hrun Hcheck Hemoji s'.
  assert (Hs' : s' = (set_running false (fst s), snd s)).
  { subst s'.
    assert (Hbutton : exists button,
               lookup_button class_buttons (fst s) CROSS_MARK = Some button
               /\ forall ev, action button ev = stop).
    { destruct Hcls; subst class_buttons;
        [apply PokeListMenu_cross_mark | apply GenericMenu_cross_mark]. }
    destruct Hbutton as (button & Hfind & Hact).
    apply dispatch_stop with (button := button); try assumption.
    - now rewrite Hemoji.
    - apply Hact. }
  rewrite Hs'. cbn [fst snd set_running _running current_page].
  repeat split. apply run_stopped. reflexivity.
Qed.

Lemma C5_witness :
  let s := (Demo.list_menu Demo.three 1, Demo.world0) in
  let s' := dispatch PokeListMenu.class_buttons s (Demo.event 7 CROSS_MARK Timeout) in
  _running (fst s') = false
  /\ run PokeListMenu.class_buttons s'
       [Demo.event 7 BLACK_RIGHT_POINTING_TRIANGLE Timeout;
        Demo.event 1 LEFT_POINTING_MAGNIFYING_GLASS (Demo.reply 3)] = s'.
Proof.
  cbv zeta.
  pose proof (C5_stop_is_terminal string PokeListMenu.class_buttons
                (Demo.list_menu Demo.three 1, Demo.world0)
                (Demo.event 7 CROSS_MARK Timeout)
                [Demo.event 7 BLACK_RIGHT_POINTING_TRIANGLE Timeout;
                 Demo.event 1 LEFT_POINTING_MAGNIFYING_GLASS (Demo.reply 3)]
                (or_introl eq_refl) eq_refl eq_refl eq_refl)
    as (Hstopped & _ & _ & Hlater).
  split; assumption.
Defined.

(** ** The jump prompt and its clean-up *)

(** The prompt is deleted after a timeout and after any reply other than 0,
    here for a list source. *)
Lemma number_page_deletes_prompt {E} (entries : list E) (m : Menu E) (w : World)
      (p : Payload) (o : wait_outcome) :
  _source m = ListPageSource entries ->
  match o with
  | Reply msg => content_int msg <> 0
  | Timeout => True
  end ->
  In (Delete (next_id w)) (trace (world_after (PokeListMenu.number_page p o (m, w)))).
Proof.
  intros Hs Ho.
  assert (Hmax : get_max_pages (_source m) = Some (len entries)) by now rewrite Hs.
  destruct o as [msg|].
  - assert (Hshown : forall n w0, exists m' w',
               show_checked_page n (m, w0) = (Ok tt, (m', w'))).
    { intros n w0.
      destruct (Z_lt_dec n 0) as [Hn|Hn]; [|destruct (Z_lt_dec n (len entries)) as [Hn'|Hn']].
      - do 2 eexists. apply show_checked_page_outside with (max_pages := len entries);
          [assumption | lia].
      - do 2 eexists. apply show_checked_page_inside with (entries := entries);
          [assumption | lia].
      - do 2 eexists. apply show_checked_page_outside with (max_pages := len entries);
          [assumption | lia]. }
    set (w1 := sent PokeListMenu.jump_prompt None w).
    destruct (content_int msg >? len entries) eqn:Hgt.
    + destruct (Hshown (len entries - 1) (sent PokeListMenu.jump_notice (Some 5) w1))
        as (m' & w' & Hshow).
      rewrite (number_page_reply m w p msg (len entries) m' w' Ho Hmax)
        by (rewrite Hgt; exact Hshow).
      unfold world_after; in_trace.
    + destruct (Hshown (content_int msg - 1) w1) as (m' & w' & Hshow).
      rewrite (number_page_reply m w p msg (len entries) m' w' Ho Hmax)
        by (rewrite Hgt; exact Hshow).
      unfold world_after; in_trace.
  - rewrite number_page_timeout. unfold world_after; cbn.
    rewrite !in_app_iff. cbn [In]. tauto.
Qed.

(** C6 at the reply 0, on page 2 of five: [valid_int] accepts the reply, the
    handler returns, and the only thing that happened outside is the prompt
    being sent: it is never deleted, and neither is the reply.  After a
    timeout on the same menu the prompt is deleted and the menu is as
    before. *)
Theorem C6_reply_zero_leaves_prompt :
  let m := Demo.list_menu Demo.five 2 in
  let p := Demo.press 7 LEFT_POINTING_MAGNIFYING_GLASS in
  let zero := PokeListMenu.number_page p (Demo.reply 0) (m, Demo.world0) in
  let late := PokeListMenu.number_page p Timeout (m, Demo.world0) in
  outcome zero = Ok tt
  /\ trace (world_after zero) = [Send 500 PokeListMenu.jump_prompt None]
  /\ ~ In (Delete 500) (trace (world_after zero))
  /\ menu_after zero = m
  /\ trace (world_after late) = [Send 500 PokeListMenu.jump_prompt None; Delete 500]
  /\ menu_after late = m.
Proof.
  cbv zeta. repeat split.
  cbn. intros [H|[]]. discriminate.
Qed.

(** ** No pages at all *)

(** C7 as the claim words it, on a menu over an empty list: previous raises
    [IndexError] in both classes, and so do first and last. *)
Lemma C7_counterexample :
  let s := (Demo.list_menu [] 0, Demo.world0) in
  let p := Demo.press 7 BLACK_LEFT_POINTING_TRIANGLE in
  get_max_pages (_source (fst s)) = Some 0
  /\ outcome (PokeListMenu.prev p s) = Raise IndexError
  /\ outcome (GenericMenu.prev p s) = Raise IndexError
  /\ outcome (GenericMenu.go_to_first_page p s) = Raise IndexError
  /\ outcome (GenericMenu.go_to_last_page p s) = Raise IndexError.
Proof. cbv zeta. repeat split. Qed.

Section NoPages.
Context {E : Type}.
Variables (m : Menu E) (w : World) (p : Payload).
Hypothesis empty : _source m = ListPageSource [].

Lemma show_page_empty n : show_page n (m, w) = (Raise IndexError, (m, w)).
Proof. apply show_page_raise. rewrite empty. cbn. apply getitem_nil. Qed.

Lemma show_checked_page_empty n : show_checked_page n (m, w) = (Ok tt, (m, w)).
Proof.
  apply show_checked_page_outside with (max_pages := 0); [now rewrite empty|].
  lia.
Qed.

Lemma max_pages_minus_1_empty : get_max_pages_minus_1 (m, w) = (Ok (-1), (m, w)).
Proof. now rewrite (get_max_pages_minus_1_list m w [] empty). Qed.

End NoPages.

(** C7, amended.  With no page and the index at 0, every navigation handler
    leaves the menu (so the index) as it was; next and jump return without
    raising. *)
Theorem C7_no_pages_index_stays
    (E : Type) (m : Menu E) (w : World) (p : Payload) (o : wait_outcome) :
  _source m = ListPageSource [] ->
  current_page m = 0 ->
  (PokeListMenu.next p (m, w) = (Ok tt, (m, w))
   /\ GenericMenu.next p (m, w) = (Ok tt, (m, w)))
  /\ (outcome (PokeListMenu.number_page p o (m, w)) = Ok tt
      /\ menu_after (PokeListMenu.number_page p o (m, w)) = m)
  /\ (menu_after (PokeListMenu.prev p (m, w)) = m
      /\ menu_after (GenericMenu.prev p (m, w)) = m)
  /\ menu_after (GenericMenu.go_to_first_page p (m, w)) = m
  /\ menu_after (GenericMenu.go_to_last_page p (m, w)) = m.
Proof.
  intros Hs Hc.
  assert (Hmax : get_max_pages (_source m) = Some 0) by now rewrite Hs.
  assert (Hnext : PokeListMenu.next p (m, w) = (Ok tt, (m, w))).
  { unfold PokeListMenu.next. read_self.
    unfold bind. rewrite (max_pages_minus_1_empty m w Hs), Hc. cbn.
    apply (show_checked_page_empty m w Hs). }
  assert (Hprev : PokeListMenu.prev p (m, w) = (Raise IndexError, (m, w))).
  { unfold PokeListMenu.prev. read_self.
    rewrite Hc. cbn. unfold bind. rewrite (max_pages_minus_1_empty m w Hs).
    apply (show_page_empty m w Hs). }
  assert (Hlast : GenericMenu.go_to_last_page p (m, w) = (Raise IndexError, (m, w))).
  { unfold GenericMenu.go_to_last_page, bind.
    rewrite (max_pages_minus_1_empty m w Hs). apply (show_page_empty m w Hs). }
  assert (Hjump : exists w', PokeListMenu.number_page p o (m, w) = (Ok tt, (m, w'))).
  { destruct o as [msg|]; [|eexists; apply number_page_timeout].
    destruct (Z.eq_dec (content_int msg) 0) as [H0|Hnz].
    - eexists. now apply number_page_zero.
    - destruct (content_int msg >? 0) eqn:Hgt; eexists;
        (apply number_page_reply with (total := 0); try assumption);
        rewrite Hgt; apply (show_checked_page_empty m _ Hs). }
  destruct Hjump as (w' & Hjump).
  repeat split.
  - exact Hnext.
  - exact Hnext.
  - now rewrite Hjump.
  - now rewrite Hjump.
  - now rewrite Hprev.
  - rewrite GenericMenu_prev_same. now rewrite Hprev.
  - unfold GenericMenu.go_to_first_page. now rewrite (show_page_empty m w Hs).
  - now rewrite Hlast.
Qed.

Lemma C7_witness :
  let s := (Demo.list_menu [] 0, Demo.world0) in
  let p := Demo.press 7 LEFT_POINTING_MAGNIFYING_GLASS in
  PokeListMenu.next p s = (Ok tt, s)
  /\ current_page (menu_after (PokeListMenu.number_page p (Demo.reply 4) s)) = 0.
Proof.
  cbv zeta.
  pose proof (C7_no_pages_index_stays string (Demo.list_menu [] 0) Demo.world0
                (Demo.press 7 LEFT_POINTING_MAGNIFYING_GLASS) (Demo.reply 4)
                eq_refl eq_refl) as ((Hnext & _) & (_ & Hjump) & _).
  split; [exact Hnext|].
  rewrite Hjump. reflexivity.
Defined.

(** ** The Pokémon page *)

Lemma string_length_append (a b : string) :
  String.length (a ++ b)%string = (String.length a + String.length b)%nat.
Proof. induction a as [|c a IH]; cbn; [reflexivity | now rewrite IH]. Qed.

Lemma zeros_length (k : nat) : String.length (zeros k) = k.
Proof. induction k as [|k IH]; cbn; [reflexivity | now rewrite IH]. Qed.

(** [zfill] never shortens and always reaches the width. *)
Lemma zfill_length (s : string) (width : nat) :
  String.length (zfill s width) = Nat.max width (String.length s).
Proof.
  unfold zfill. destruct s as [|c rest].
  - rewrite zeros_length. cbn. lia.
  - destruct (Ascii.eqb c "+" || Ascii.eqb c "-")%bool; cbn [String.length];
      rewrite string_length_append, zeros_length; cbn [String.length]; lia.
Qed.

Example default_asset_25 :
  PokeList.default_asset 25
  = "https://assets.pokemon.com/assets/cms2/img/pokedex/detail/025.png".
Proof. reflexivity. Qed.

(** C9 as the claim words it, at a record with a sprite URL of its own and no
    catalog id: the page gets no thumbnail at all. *)
Lemma C9_counterexample :
  let pokemon := Demo.without_id (Demo.with_url "https://example.com/pika.png" Demo.pikachu) in
  PokeList.url pokemon = Some "https://example.com/pika.png"
  /\ PokeList.thumbnail (Demo.render [pokemon] pokemon) = None.
Proof. cbv zeta. split; reflexivity. Qed.

(** C9, amended.  The page has a thumbnail exactly when the record has a
    catalog id other than 0: then it is the record's URL when that is present
    and not empty, and otherwise the default asset URL with the catalog id
    zero-padded to three digits.  The footer always shows the record's
    display id over the number of entries. *)
Theorem C9_thumbnail_and_footer
    (calc_xp : Z -> Z) (get_name : string -> Z -> string)
    (tabulate : list (string * Z) -> list string -> string)
    (entries : list PokeList.Pokemon) (menu : Menu PokeList.Pokemon)
    (pokemon : PokeList.Pokemon) :
  let embed := PokeList.format_page calc_xp get_name tabulate
                 (PokeList.source entries) menu pokemon in
  (forall i u, PokeList.id pokemon = Some i -> i <> 0 ->
               PokeList.url pokemon = Some u -> u <> "" ->
               PokeList.thumbnail embed = Some u)
  /\ (forall i, PokeList.id pokemon = Some i -> i <> 0 ->
                PokeList.url pokemon = None \/ PokeList.url pokemon = Some "" ->
                PokeList.thumbnail embed
                = Some ("https://assets.pokemon.com/assets/cms2/img/pokedex/detail/"
                          ++ zfill (str i) 3 ++ ".png")%string)
  /\ (PokeList.id pokemon = None \/ PokeList.id pokemon = Some 0 ->
      PokeList.thumbnail embed = None)
  /\ PokeList.footer embed
     = Some ("Pokémon ID: " ++ str (PokeList.sid pokemon) ++ "/" ++ str (len entries))%string.
Proof.
  intros embed. subst embed. unfold PokeList.format_page.
  cbn [PokeList.thumbnail PokeList.footer PokeList.source ListPageSource get_max_pages].
  repeat split.
  - intros i u Hid Hi Hurl Hu. rewrite Hid, Hurl. cbn [truthy_int truthy_str].
    apply Z.eqb_neq in Hi. rewrite Hi.
    apply String.eqb_neq in Hu. now rewrite Hu.
  - intros i Hid Hi Hurl. rewrite Hid. cbn [truthy_int].
    apply Z.eqb_neq in Hi. rewrite Hi.
    destruct Hurl as [Hurl|Hurl]; rewrite Hurl; reflexivity.
  - intros [Hid|Hid]; rewrite Hid; reflexivity.
Qed.

Lemma C9_witness :
  PokeList.thumbnail (Demo.render [Demo.pikachu] Demo.pikachu)
  = Some "https://assets.pokemon.com/assets/cms2/img/pokedex/detail/025.png"
  /\ PokeList.thumbnail
       (Demo.render [Demo.pikachu] (Demo.with_url "https://example.com/pika.png" Demo.pikachu))
     = Some "https://example.com/pika.png"
  /\ PokeList.footer (Demo.render [Demo.pikachu] Demo.pikachu) = Some "Pokémon ID: 3/1".
Proof.
  split; [|split].
  - apply (C9_thumbnail_and_footer (fun lvl => lvl * 100) (fun n _ => n) (fun _ _ => "")
             [Demo.pikachu] (Demo.menu_on (PokeList.source [Demo.pikachu]) 7 7 0)
             Demo.pikachu) with (i := 25);
      [reflexivity | discriminate | left; reflexivity].
  - apply (C9_thumbnail_and_footer (fun lvl => lvl * 100) (fun n _ => n) (fun _ _ => "")
             [Demo.pikachu] (Demo.menu_on (PokeList.source [Demo.pikachu]) 7 7 0)
             (Demo.with_url "https://example.com/pika.png" Demo.pikachu)) with (i := 25);
      [reflexivity | discriminate | reflexivity | discriminate].
  - apply (C9_thumbnail_and_footer (fun lvl => lvl * 100) (fun n _ => n) (fun _ _ => "")
             [Demo.pikachu] (Demo.menu_on (PokeList.source [Demo.pikachu]) 7 7 0)
             Demo.pikachu).
Defined.

(** ** Runs of the event loop on the sample menus *)

(** Three pages, index 0, the author presses previous: the last page is shown. *)
Example previous_wraps_to_last :
  let s := run PokeListMenu.class_buttons (Demo.list_menu Demo.three 0, Demo.world0)
             [Demo.event 7 BLACK_LEFT_POINTING_TRIANGLE Timeout] in
  current_page (fst s) = 2 /\ trace (snd s) = [Edit 2].
Proof. cbv zeta. split; reflexivity. Qed.

(** Three pages, index 2, an owner presses next: the first page is shown. *)
Example next_wraps_to_first :
  let s := run GenericMenu.class_buttons (Demo.list_menu Demo.three 2, Demo.world0)
             [Demo.event 1 BLACK_RIGHT_POINTING_TRIANGLE Timeout] in
  current_page (fst s) = 0 /\ trace (snd s) = [Edit 0].
Proof. cbv zeta. split; reflexivity. Qed.

(** Five pages, the reply 10 to the jump prompt: the index becomes 4, the
    notice is sent, and the prompt and the reply are deleted. *)
Example jump_beyond_the_end :
  let s := run PokeListMenu.class_buttons (Demo.list_menu Demo.five 0, Demo.world0)
             [Demo.event 7 LEFT_POINTING_MAGNIFYING_GLASS (Demo.reply 10)] in
  current_page (fst s) = 4
  /\ trace (snd s)
     = [Send 500 PokeListMenu.jump_prompt None;
        Send 501 PokeListMenu.jump_notice (Some 5);
        Edit 4; Delete 500; Delete 900].
Proof. cbv zeta. split; reflexivity. Qed.

(** A handler that raises is reported by the loop, and the menu keeps running. *)
Example previous_on_no_pages_is_reported :
  let s := run PokeListMenu.class_buttons (Demo.list_menu [] 0, Demo.world0)
             [Demo.event 7 BLACK_LEFT_POINTING_TRIANGLE Timeout] in
  current_page (fst s) = 0
  /\ _running (fst s) = true
  /\ trace (snd s) = [ButtonError IndexError].
Proof. cbv zeta. repeat split. Qed.

(** Someone else's list: no select button, and a press of it is not delivered. *)
Example select_hidden_on_another_users_list :
  let m := Demo.menu_on (ListPageSource Demo.three) 7 8 0 in
  PokeListMenu.visible m
  = [BLACK_LEFT_POINTING_TRIANGLE; CROSS_MARK; BLACK_RIGHT_POINTING_TRIANGLE;
     LEFT_POINTING_MAGNIFYING_GLASS]
  /\ dispatch PokeListMenu.class_buttons (m, Demo.world0)
       (Demo.event 7 WHITE_HEAVY_CHECK_MARK Timeout) = (m, Demo.world0).
Proof. cbv zeta. split; reflexivity. Qed.

(* ------------------------------------------------------------------ *)
(** * Further properties of the module *)

(** ** Previous and next as a cycle *)

Lemma PageIndex_next_mod total i :
  0 <= i < total -> PageIndex.next total i = (i + 1) mod total.
Proof.
  intros Hi. unfold PageIndex.next.
  destruct (i =? total - 1) eqn:Hlast.
  - apply Z.eqb_eq in Hlast. replace (i + 1) with total by lia.
    now rewrite Z.mod_same by lia.
  - apply Z.eqb_neq in Hlast. rewrite Z.mod_small; lia.
Qed.

Lemma PageIndex_previous_mod total i :
  0 <= i < total -> PageIndex.previous total i = (i - 1) mod total.
Proof.
  intros Hi. unfold PageIndex.previous.
  destruct (i =? 0) eqn:Hfirst.
  - apply Z.eqb_eq in Hfirst. subst i.
    replace (0 - 1) with (total - 1 + (-1) * total) by lia.
    rewrite Z.mod_add by lia. rewrite Z.mod_small; lia.
  - apply Z.eqb_neq in Hfirst. rewrite Z.mod_small; lia.
Qed.

Lemma PageIndex_next_repeat total p k : forall i,
  0 <= i < total ->
  fold_left (fun j (np : nav * Payload) => PageIndex.move total (fst np) j)
            (Runs.presses go_next p k) i
  = (i + Z.of_nat k) mod total.
Proof.
  induction k as [|k IH]; intros i Hi.
  - cbn. rewrite Z.add_0_r, Z.mod_small; lia.
  - cbn [Runs.presses repeat fold_left fst PageIndex.move].
    fold (Runs.presses go_next p k).
    rewrite IH by (rewrite PageIndex_next_mod by lia; apply Z.mod_pos_bound; lia).
    rewrite PageIndex_next_mod by lia.
    rewrite Zplus_mod_idemp_l. f_equal. lia.
Qed.

Lemma PageIndex_previous_repeat total p k : forall i,
  0 <= i < total ->
  fold_left (fun j (np : nav * Payload) => PageIndex.move total (fst np) j)
            (Runs.presses go_prev p k) i
  = (i - Z.of_nat k) mod total.
Proof.
  induction k as [|k IH]; intros i Hi.
  - cbn. rewrite Z.sub_0_r, Z.mod_small; lia.
  - cbn [Runs.presses repeat fold_left fst PageIndex.move].
    fold (Runs.presses go_prev p k).
    rewrite IH by (rewrite PageIndex_previous_mod by lia; apply Z.mod_pos_bound; lia).
    rewrite PageIndex_previous_mod by lia.
    rewrite Zminus_mod_idemp_l. f_equal. lia.
Qed.

Lemma navigate_index {E} (entries : list E) (m : Menu E) (w : World)
      (presses : list (nav * Payload)) :
  _source m = ListPageSource entries ->
  0 <= current_page m < len entries ->
  current_page (menu_after (PokeListMenu.navigate presses (m, w)))
  = fold_left (fun i np => PageIndex.move (len entries) (fst np) i)
              presses (current_page m).
Proof.
  intros Hs Hc.
  destruct (PokeListMenu_navigate_list entries ltac:(lia) presses m w Hs Hc)
    as (m' & w' & Hrun & _ & Hfold & _).
  rewrite Hrun. exact Hfold.
Qed.

(** X1.  On a list of pages with the index on one of them, next followed by
    previous, and previous followed by next, bring the menu back to the page
    it was on, in both menu classes. *)
Theorem X1_next_previous_round_trip
    (E : Type) (entries : list E) (m : Menu E) (w : World) (p : Payload) :
  _source m = ListPageSource entries ->
  0 <= current_page m < len entries ->
  current_page (menu_after (PokeListMenu.navigate [(go_next, p); (go_prev, p)] (m, w)))
  = current_page m
  /\ current_page (menu_after (PokeListMenu.navigate [(go_prev, p); (go_next, p)] (m, w)))
     = current_page m
  /\ current_page (menu_after (GenericMenu.navigate [(go_next, p); (go_prev, p)] (m, w)))
     = current_page m
  /\ current_page (menu_after (GenericMenu.navigate [(go_prev, p); (go_next, p)] (m, w)))
     = current_page m.
Proof.
  intros Hs Hc.
  assert (Hnp : PageIndex.previous (len entries) (PageIndex.next (len entries) (current_page m))
                = current_page m).
  { unfold PageIndex.previous, PageIndex.next.
    destruct (current_page m =? len entries - 1) eqn:H1.
    - apply Z.eqb_eq in H1. cbn. lia.
    - apply Z.eqb_neq in H1.
      destruct (current_page m + 1 =? 0) eqn:H2; [apply Z.eqb_eq in H2|]; lia. }
  assert (Hpn : PageIndex.next (len entries) (PageIndex.previous (len entries) (current_page m))
                = current_page m).
  { unfold PageIndex.previous, PageIndex.next.
    destruct (current_page m =? 0) eqn:H1.
    - apply Z.eqb_eq in H1. rewrite Z.eqb_refl. lia.
    - apply Z.eqb_neq in H1.
      destruct (current_page m - 1 =? len entries - 1) eqn:H2;
        [apply Z.eqb_eq in H2|]; lia. }
  change (@GenericMenu.navigate E) with (@PokeListMenu.navigate E).
  rewrite !(navigate_index entries m w _ Hs Hc). cbn. auto.
Qed.

Lemma X1_witness :
  current_page
    (menu_after (PokeListMenu.navigate
                   [(go_prev, Demo.press 7 CROSS_MARK); (go_next, Demo.press 7 CROSS_MARK)]
                   (Demo.list_menu Demo.three 0, Demo.world0))) = 0.
Proof.
  apply (X1_next_previous_round_trip string Demo.three (Demo.list_menu Demo.three 0)
           Demo.world0 (Demo.press 7 CROSS_MARK) eq_refl
           ltac:(cbv; split; [discriminate | reflexivity])).
Defined.

(** X2.  On a list of [total] pages with the index on one of them, [k]
    presses of next leave the index at [(index + k) mod total] and [k]
    presses of previous at [(index - k) mod total]; so [total] presses of
    either button come back to the starting page. *)
Theorem X2_presses_cycle
    (E : Type) (entries : list E) (m : Menu E) (w : World) (p : Payload) (k : nat) :
  _source m = ListPageSource entries ->
  0 <= current_page m < len entries ->
  let total := len entries in
  let after a n := current_page (menu_after (PokeListMenu.navigate (Runs.presses a p n) (m, w))) in
  after go_next k = (current_page m + Z.of_nat k) mod total
  /\ after go_prev k = (current_page m - Z.of_nat k) mod total
  /\ after go_next (List.length entries) = current_page m
  /\ after go_prev (List.length entries) = current_page m.
Proof.
  intros Hs Hc total after. subst after. cbv beta.
  rewrite !(navigate_index entries m w _ Hs Hc).
  rewrite !PageIndex_next_repeat, !PageIndex_previous_repeat by assumption.
  fold (len entries). fold total.
  repeat split.
  - replace (current_page m + total) with (current_page m + 1 * total) by lia.
    rewrite Z.mod_add by (subst total; lia). apply Z.mod_small. assumption.
  - replace (current_page m - total) with (current_page m + (-1) * total) by lia.
    rewrite Z.mod_add by (subst total; lia). apply Z.mod_small. assumption.
Qed.

Lemma X2_witness :
  current_page
    (menu_after (PokeListMenu.navigate
                   (Runs.presses go_next (Demo.press 7 BLACK_RIGHT_POINTING_TRIANGLE) 7)
                   (Demo.list_menu Demo.five 4, Demo.world0))) = 1.
Proof.
  apply (X2_presses_cycle string Demo.five (Demo.list_menu Demo.five 4) Demo.world0
           (Demo.press 7 BLACK_RIGHT_POINTING_TRIANGLE) 7 eq_refl
           ltac:(cbv; split; [discriminate | reflexivity])).
Defined.

(** ** Invariants of the event loop *)

Section LoopInvariant.
Context {E : Type}.
Variable class_buttons : list (Button E).
Variable I : State E -> Prop.
Hypothesis I_error : forall m w e, I (m, w) -> I (m, record_effect (ButtonError e) w).
Hypothesis I_action :
  forall button, In button class_buttons ->
  forall ev s, I s -> skip_if button (fst s) = false -> I (snd (action button ev s)).

Lemma lookup_button_declared (m : Menu E) (e : emoji) (button : Button E) :
  lookup_button class_buttons m e = Some button ->
  In button class_buttons /\ skip_if button m = false /\ button_emoji button = e.
Proof.
  unfold lookup_button, buttons. intros Hfind.
  apply find_some in Hfind. destruct Hfind as [Hin Heq].
  apply filter_In in Hin. destruct Hin as [Hin Hskip].
  repeat split; [assumption | now destruct (skip_if button m) |].
  destruct (button_emoji button), e; cbn in Heq; try discriminate; try reflexivity.
  apply String.eqb_eq in Heq. now subst.
Qed.

Lemma update_keeps (ev : Event) (s : State E) : I s -> I (snd (update class_buttons ev s)).
Proof.
  intros Hs. unfold update. read_self.
  destruct (lookup_button class_buttons (fst s) (payload_emoji (payload ev)))
    as [button|] eqn:Hfind; [|exact Hs].
  apply lookup_button_declared in Hfind. destruct Hfind as (Hin & Hshown & _).
  destruct (_running (fst s)); cbn [negb]; [|exact Hs].
  unfold try_except_all.
  pose proof (I_action button Hin ev s Hs Hshown) as Hact.
  destruct (action button ev s) as [[a|e] [m' w']]; cbn [snd] in *; [exact Hact|].
  unfold emit, modify. cbn [fst snd]. now apply I_error.
Qed.

Lemma dispatch_keeps (s : State E) (ev : Event) : I s -> I (dispatch class_buttons s ev).
Proof.
  intros Hs. unfold dispatch.
  destruct (_running (fst s) && reaction_check class_buttons (fst s) (payload ev));
    [now apply update_keeps | exact Hs].
Qed.

Lemma run_keeps (evs : list Event) : forall s, I s -> I (run class_buttons s evs).
Proof.
  induction evs as [|ev rest IH]; intros s Hs; [exact Hs|].
  unfold run in *. cbn [fold_left]. apply IH. now apply dispatch_keeps.
Qed.

End LoopInvariant.

Section OnAPage.
Context {E : Type}.
Variable entries : list E.
Implicit Types (m : Menu E) (w : World) (p : Payload).

Let total : Z := len entries.
Let I : State E -> Prop := Runs.on_a_page entries.

Lemma on_a_page_record m w ef :
  I (m, w) -> Runs.effect_ok total ef -> I (m, record_effect ef w).
Proof.
  intros (Hs & Hc & Ht) Hef. repeat split; try assumption; try apply Hc.
  cbn. apply Forall_app. split; [exact Ht | now constructor].
Qed.

Lemma on_a_page_sent m w content delete_after :
  I (m, w) -> I (m, sent content delete_after w).
Proof.
  intros (Hs & Hc & Ht). repeat split; try assumption; try apply Hc.
  cbn. apply Forall_app. split; [exact Ht | now repeat constructor].
Qed.

Lemma on_a_page_shown m w n :
  I (m, w) -> 0 <= n < total ->
  I (set_current_page n m, record_effect (Edit n) w).
Proof.
  intros (Hs & Hc & Ht) Hn. repeat split; try assumption; try apply Hn.
  cbn. apply Forall_app. split; [exact Ht | now repeat constructor].
Qed.

Lemma show_checked_page_list m w n :
  _source m = ListPageSource entries ->
  show_checked_page n (m, w)
  = (Ok tt, if (0 <=? n) && (n <? total)
            then (set_current_page n m, record_effect (Edit n) w)
            else (m, w)).
Proof.
  intros Hs.
  destruct (0 <=? n) eqn:H0; destruct (n <? total) eqn:H1; cbn [andb];
    try apply Z.leb_le in H0; try apply Z.leb_gt in H0;
    try apply Z.ltb_lt in H1; try apply Z.ltb_ge in H1.
  - apply show_checked_page_inside with (entries := entries); [assumption | subst total; lia].
  - apply show_checked_page_outside with (max_pages := total); [now rewrite Hs | lia].
  - apply show_checked_page_outside with (max_pages := total); [now rewrite Hs | lia].
  - apply show_checked_page_outside with (max_pages := total); [now rewrite Hs | lia].
Qed.

Lemma on_a_page_show_checked m w n :
  I (m, w) -> I (snd (show_checked_page n (m, w))).
Proof.
  intros Hs. rewrite show_checked_page_list by apply Hs. cbn [snd].
  destruct (0 <=? n) eqn:H0; destruct (n <? total) eqn:H1; cbn [andb]; try exact Hs.
  apply on_a_page_shown; [exact Hs|].
  apply Z.leb_le in H0. apply Z.ltb_lt in H1. lia.
Qed.

Lemma on_a_page_prev m w p : I (m, w) -> I (snd (PokeListMenu.prev p (m, w))).
Proof.
  intros Hs. pose proof Hs as (Hsrc & Hc & _). cbn [fst] in Hsrc, Hc.
  rewrite (PokeListMenu_prev_list entries ltac:(lia) m w p Hsrc Hc). cbn [snd].
  apply on_a_page_shown; [exact Hs|].
  apply (PageIndex_move_in_range (len entries) go_prev); lia.
Qed.

Lemma on_a_page_next m w p : I (m, w) -> I (snd (PokeListMenu.next p (m, w))).
Proof.
  intros Hs. pose proof Hs as (Hsrc & Hc & _). cbn [fst] in Hsrc, Hc.
  rewrite (PokeListMenu_next_list entries ltac:(lia) m w p Hsrc Hc). cbn [snd].
  apply on_a_page_shown; [exact Hs|].
  apply (PageIndex_move_in_range (len entries) go_next); lia.
Qed.

Lemma on_a_page_stop m w : I (m, w) -> I (snd (@stop E (m, w))).
Proof. intros (Hs & Hc & Ht). repeat split; try assumption; apply Hc. Qed.

Lemma on_a_page_select m w p : I (m, w) -> I (snd (PokeListMenu.select p (m, w))).
Proof.
  intros Hs. pose proof Hs as (_ & Hc & _). cbn [fst] in Hc.
  apply on_a_page_record; [exact Hs|]. cbn. subst total. lia.
Qed.

Lemma on_a_page_first m w p : I (m, w) -> I (snd (GenericMenu.go_to_first_page p (m, w))).
Proof.
  intros Hs. pose proof Hs as (Hsrc & Hc & _). cbn [fst] in Hsrc, Hc.
  unfold GenericMenu.go_to_first_page.
  rewrite (show_page_list m w entries 0 Hsrc) by lia. cbn [snd].
  apply on_a_page_shown; [exact Hs | subst total; lia].
Qed.

Lemma on_a_page_last m w p : I (m, w) -> I (snd (GenericMenu.go_to_last_page p (m, w))).
Proof.
  intros Hs. pose proof Hs as (Hsrc & Hc & _). cbn [fst] in Hsrc, Hc.
  unfold GenericMenu.go_to_last_page, bind.
  rewrite (get_max_pages_minus_1_list m w entries Hsrc).
  rewrite (show_page_list m w entries (len entries - 1) Hsrc) by lia. cbn [snd].
  apply on_a_page_shown; [exact Hs | subst total; lia].
Qed.

Lemma on_a_page_number_page m w p o :
  I (m, w) -> I (snd (PokeListMenu.number_page p o (m, w))).
Proof.
  intros Hs. pose proof Hs as (Hsrc & Hc & _). cbn [fst] in Hsrc, Hc.
  assert (Hmax : get_max_pages (_source m) = Some total) by now rewrite Hsrc.
  destruct o as [msg|].
  - destruct (Z.eq_dec (content_int msg) 0) as [H0|Hnz].
    + rewrite number_page_zero by assumption. cbn [snd]. now apply on_a_page_sent.
    + set (w1 := sent PokeListMenu.jump_prompt None w).
      assert (H1 : I (m, w1)) by now apply on_a_page_sent.
      destruct (content_int msg >? total) eqn:Hgt.
      * set (w2 := sent PokeListMenu.jump_notice (Some 5) w1).
        assert (H2 : I (m, w2)) by now apply on_a_page_sent.
        pose proof (on_a_page_show_checked m w2 (total - 1) H2) as H3.
        destruct (show_checked_page (total - 1) (m, w2)) as [r [m' w']] eqn:Hshow.
        assert (r = Ok tt) by (rewrite show_checked_page_list in Hshow by assumption;
                               now inversion Hshow).
        subst r. cbn [snd] in H3.
        rewrite (number_page_reply m w p msg total m' w' Hnz Hmax)
          by (rewrite Hgt; exact Hshow).
        cbn [snd]. now repeat apply on_a_page_record.
      * pose proof (on_a_page_show_checked m w1 (content_int msg - 1) H1) as H3.
        destruct (show_checked_page (content_int msg - 1) (m, w1)) as [r [m' w']] eqn:Hshow.
        assert (r = Ok tt) by (rewrite show_checked_page_list in Hshow by assumption;
                               now inversion Hshow).
        subst r. cbn [snd] in H3.
        rewrite (number_page_reply m w p msg total m' w' Hnz Hmax)
          by (rewrite Hgt; exact Hshow).
        cbn [snd]. now repeat apply on_a_page_record.
  - rewrite number_page_timeout. cbn [snd].
    apply on_a_page_record; [now apply on_a_page_sent | exact Logic.I].
Qed.

Lemma on_a_page_PokeListMenu (button : Button E) :
  In button PokeListMenu.class_buttons ->
  forall ev s, I s -> I (snd (action button ev s)).
Proof.
  intros Hin ev [m w] Hs.
  destruct Hin as [<-|[<-|[<-|[<-|[<-|[]]]]]]; cbn [action].
  - now apply on_a_page_prev.
  - now apply on_a_page_stop.
  - now apply on_a_page_next.
  - now apply on_a_page_select.
  - now apply on_a_page_number_page.
Qed.

Lemma on_a_page_GenericMenu (button : Button E) :
  In button GenericMenu.class_buttons ->
  forall ev s, I s -> I (snd (action button ev s)).
Proof.
  intros Hin ev [m w] Hs.
  destruct Hin as [<-|[<-|[<-|[<-|[<-|[]]]]]]; cbn [action].
  - now apply on_a_page_prev.
  - now apply on_a_page_stop.
  - now apply on_a_page_next.
  - now apply on_a_page_first.
  - now apply on_a_page_last.
Qed.

End OnAPage.

(** X3.  A menu of either class opened on a list and sitting on one of its
    pages stays on one of its pages whatever events arrive (any buttons, from
    any users, with any reply or none to a jump prompt); every page it shows
    on the way is a page of the list, and every id it hands to the select
    command lies between 1 and the number of pages. *)
Theorem X3_runs_stay_on_a_page
    (E : Type) (entries : list E) (s : State E) (evs : list Event) :
  Runs.on_a_page entries s ->
  Runs.on_a_page entries (run PokeListMenu.class_buttons s evs)
  /\ Runs.on_a_page entries (run GenericMenu.class_buttons s evs).
Proof.
  intros Hs. split.
  - apply run_keeps with (I := Runs.on_a_page entries); try assumption.
    + intros m w e H. now apply on_a_page_record.
    + intros button Hin ev s0 H0 _. now apply on_a_page_PokeListMenu.
  - apply run_keeps with (I := Runs.on_a_page entries); try assumption.
    + intros m w e H. now apply on_a_page_record.
    + intros button Hin ev s0 H0 _. now apply on_a_page_GenericMenu.
Qed.

Lemma X3_witness :
  let s := run PokeListMenu.class_buttons (Demo.list_menu Demo.three 2, Demo.world0)
             [Demo.event 7 BLACK_RIGHT_POINTING_TRIANGLE Timeout;
              Demo.event 1 LEFT_POINTING_MAGNIFYING_GLASS (Demo.reply (-4));
              Demo.event 7 WHITE_HEAVY_CHECK_MARK Timeout] in
  0 <= current_page (fst s) < 3.
Proof.
  cbv zeta.
  refine (proj1 (proj2 (proj1
    (X3_runs_stay_on_a_page string Demo.three
       (Demo.list_menu Demo.three 2, Demo.world0)
       [Demo.event 7 BLACK_RIGHT_POINTING_TRIANGLE Timeout;
        Demo.event 1 LEFT_POINTING_MAGNIFYING_GLASS (Demo.reply (-4));
        Demo.event 7 WHITE_HEAVY_CHECK_MARK Timeout] _)))).
  repeat split; [discriminate | constructor].
Defined.

(** ** What the handlers other than select leave alone *)

Section Keeps.
Context {E : Type}.
Implicit Types (K : State E -> Prop).

Lemma keeps_ret K {A} (a : A) : Runs.keeps K (ret a : Co E A).
Proof. now intros s Hs. Qed.

Lemma keeps_raise K {A} (e : exn) : Runs.keeps K (raise e : Co E A).
Proof. now intros s Hs. Qed.

Lemma keeps_lift K {A} (r : result A) : Runs.keeps K (lift r : Co E A).
Proof. now intros s Hs. Qed.

Lemma keeps_bind K {A B} (c : Co E A) (k : A -> Co E B) :
  Runs.keeps K c -> (forall a, Runs.keeps K (k a)) -> Runs.keeps K (bind c k).
Proof.
  intros Hc Hk s Hs. unfold bind. specialize (Hc s Hs).
  destruct (c s) as [[a|e] s']; cbn [snd] in *; [now apply Hk | exact Hc].
Qed.

Lemma keeps_try_except K {A} (body handler : Co E A) (e : exn) :
  Runs.keeps K body -> Runs.keeps K handler -> Runs.keeps K (try_except body e handler).
Proof.
  intros Hb Hh s Hs. unfold try_except. specialize (Hb s Hs).
  destruct (body s) as [[a|e'] s']; cbn [snd] in *; [exact Hb|].
  destruct (exn_eqb e e'); [now apply Hh | exact Hb].
Qed.

Lemma keeps_for_each K {A} (body : A -> Co E unit) (xs : list A) :
  (forall x, Runs.keeps K (body x)) -> Runs.keeps K (for_each xs body).
Proof.
  intros Hb. induction xs as [|x xs IH]; cbn [for_each]; [apply keeps_ret|].
  apply keeps_bind; [apply Hb | intros _; exact IH].
Qed.

End Keeps.

Section Frame.
Context {E : Type}.
Variable K : State E -> Prop.
Hypothesis K_page : forall n m w, K (m, w) -> K (set_current_page n m, w).
Hypothesis K_running : forall b m w, K (m, w) -> K (set_running b m, w).
Hypothesis K_effect :
  forall ef m w, Runs.is_invoke ef = false -> K (m, w) -> K (m, record_effect ef w).
Hypothesis K_sent :
  forall content delete_after m w, K (m, w) -> K (m, sent content delete_after w).

Lemma keeps_self : Runs.keeps K (@self E).
Proof. now intros s Hs. Qed.

Lemma keeps_emit ef : Runs.is_invoke ef = false -> Runs.keeps K (@emit E ef).
Proof. intros Hef [m w] Hs. now apply K_effect. Qed.

Lemma keeps_ctx_send content delete_after : Runs.keeps K (@ctx_send E content delete_after).
Proof. intros [m w] Hs. now apply K_sent. Qed.

Lemma keeps_get_max_pages_minus_1 : Runs.keeps K (@get_max_pages_minus_1 E).
Proof.
  unfold get_max_pages_minus_1. apply keeps_bind; [apply keeps_self|].
  intros m. destruct (get_max_pages (_source m)); [apply keeps_ret | apply keeps_raise].
Qed.

Lemma keeps_show_page n : Runs.keeps K (@show_page E n).
Proof.
  unfold show_page.
  apply keeps_bind; [apply keeps_self | intros m].
  apply keeps_bind; [apply keeps_lift | intros _].
  apply keeps_bind; [| intros _; now apply keeps_emit].
  intros [m' w'] Hs. now apply K_page.
Qed.

Lemma keeps_show_checked_page n : Runs.keeps K (@show_checked_page E n).
Proof.
  unfold show_checked_page.
  apply keeps_bind; [apply keeps_self | intros m].
  apply keeps_try_except; [| apply keeps_ret].
  destruct (get_max_pages (_source m)) as [max_pages|]; [|apply keeps_show_page].
  destruct ((max_pages >? n) && (n >=? 0)); [apply keeps_show_page | apply keeps_ret].
Qed.

Lemma keeps_stop : Runs.keeps K (@stop E).
Proof. intros [m w] Hs. now apply K_running. Qed.

Lemma keeps_prev p : Runs.keeps K (@PokeListMenu.prev E p).
Proof.
  unfold PokeListMenu.prev.
  apply keeps_bind; [apply keeps_self | intros m].
  destruct (current_page m =? 0); [|apply keeps_show_checked_page].
  apply keeps_bind; [apply keeps_get_max_pages_minus_1 | intros k; apply keeps_show_page].
Qed.

Lemma keeps_next p : Runs.keeps K (@PokeListMenu.next E p).
Proof.
  unfold PokeListMenu.next.
  apply keeps_bind; [apply keeps_self | intros m].
  apply keeps_bind; [apply keeps_get_max_pages_minus_1 | intros k].
  destruct (current_page m =? k); [apply keeps_show_page | apply keeps_show_checked_page].
Qed.

Lemma keeps_cleanup messages : Runs.keeps K (@PokeListMenu.cleanup E messages).
Proof.
  unfold PokeListMenu.cleanup. apply keeps_for_each.
  intros msg. now apply keeps_emit.
Qed.

Lemma keeps_clamp_to_end t : Runs.keeps K (@PokeListMenu.clamp_to_end E t).
Proof.
  unfold PokeListMenu.clamp_to_end.
  apply keeps_bind; [apply keeps_self | intros m].
  destruct (get_max_pages (_source m)) as [max_pages|]; [|apply keeps_raise].
  destruct (t >? max_pages); [|apply keeps_ret].
  apply keeps_bind; [apply keeps_ctx_send | intros _; apply keeps_ret].
Qed.

Lemma keeps_number_page p o : Runs.keeps K (@PokeListMenu.number_page E p o).
Proof.
  unfold PokeListMenu.number_page.
  apply keeps_bind; [apply keeps_ctx_send | intros prompt].
  apply keeps_try_except; [| apply keeps_cleanup].
  apply keeps_bind; [destruct o; [apply keeps_ret | apply keeps_raise] | intros msg].
  destruct (negb (content_int msg =? 0)); [|apply keeps_ret].
  apply keeps_bind; [apply keeps_clamp_to_end | intros jump_page].
  apply keeps_bind; [apply keeps_show_checked_page | intros _; apply keeps_cleanup].
Qed.

Lemma keeps_go_to_first_page p : Runs.keeps K (@GenericMenu.go_to_first_page E p).
Proof. apply keeps_show_page. Qed.

Lemma keeps_go_to_last_page p : Runs.keeps K (@GenericMenu.go_to_last_page E p).
Proof.
  unfold GenericMenu.go_to_last_page.
  apply keeps_bind; [apply keeps_get_max_pages_minus_1 | intros k; apply keeps_show_page].
Qed.

End Frame.

(** ** Menus that offer no arrows, and menus that do not know their length *)

Lemma GenericMenu_stop_only {E} (m : Menu E) :
  get_max_pages (_source m) = None \/ get_max_pages (_source m) = Some 1 ->
  map button_emoji (buttons GenericMenu.class_buttons m) = [CROSS_MARK]
  /\ forall e, lookup_button GenericMenu.class_buttons m e = None
               \/ exists button, lookup_button GenericMenu.class_buttons m e = Some button
                                 /\ forall ev, action button ev = stop.
Proof.
  intros Hmax.
  assert (Hb : buttons GenericMenu.class_buttons m
               = [ {| button_emoji := CROSS_MARK; skip_if := never_skip;
                      action := fun ev => GenericMenu.stop_pages_default (payload ev) |} ]).
  { unfold buttons, GenericMenu.class_buttons. cbn [filter skip_if never_skip negb].
    unfold GenericMenu._skip_single_arrows, GenericMenu._skip_double_triangle_buttons.
    destruct Hmax as [-> | ->]; reflexivity. }
  split; [now rewrite Hb|].
  intros e. unfold lookup_button. rewrite Hb. cbn [find button_emoji].
  destruct (emoji_eqb CROSS_MARK e); [right | now left].
  eexists. split; [reflexivity|]. intros ev. reflexivity.
Qed.

Lemma GenericMenu_stop_only_dispatch {E} (s : State E) (ev : Event) :
  get_max_pages (_source (fst s)) = None \/ get_max_pages (_source (fst s)) = Some 1 ->
  dispatch GenericMenu.class_buttons s ev = s
  \/ dispatch GenericMenu.class_buttons s ev = Runs.stopped s.
Proof.
  destruct s as [m w]. cbn [fst]. intros Hmax. unfold dispatch. cbn [fst].
  destruct (_running m) eqn:Hrun; cbn [andb]; [|now left].
  destruct (reaction_check GenericMenu.class_buttons m (payload ev)); [|now left].
  unfold update, bind, self. cbn [fst snd].
  destruct (proj2 (GenericMenu_stop_only m Hmax) (payload_emoji (payload ev)))
    as [Hnone | (button & Hsome & Hact)].
  - rewrite Hnone. now left.
  - rewrite Hsome, Hrun. cbn [negb]. unfold try_except_all. rewrite Hact.
    now right.
Qed.

(** X4.  A generic menu whose source reports an unknown number of pages, or
    exactly one page, offers the stop button alone; whatever events arrive,
    it ends either exactly as it started or stopped with everything else
    untouched.  No page is shown, and in particular no handler ever meets the
    missing page count. *)
Theorem X4_generic_menu_without_pages_only_stops
    (E : Type) (s : State E) (evs : list Event) :
  get_max_pages (_source (fst s)) = None \/ get_max_pages (_source (fst s)) = Some 1 ->
  GenericMenu.visible (fst s) = [CROSS_MARK]
  /\ (run GenericMenu.class_buttons s evs = s
      \/ run GenericMenu.class_buttons s evs = Runs.stopped s).
Proof.
  intros Hmax. split; [exact (proj1 (GenericMenu_stop_only (fst s) Hmax))|].
  revert s Hmax. induction evs as [|ev rest IH]; intros s Hmax; [now left|].
  unfold run in *. cbn [fold_left].
  destruct (GenericMenu_stop_only_dispatch s ev Hmax) as [-> | ->].
  - now apply IH.
  - right. apply (run_stopped GenericMenu.class_buttons). reflexivity.
Qed.

Lemma X4_witness :
  let s := (Demo.menu_on Demo.endless 7 7 0, Demo.world0) in
  let s' := run GenericMenu.class_buttons s
              [Demo.event 7 BLACK_RIGHT_POINTING_TRIANGLE Timeout;
               Demo.event 7 BLACK_RIGHT_POINTING_DOUBLE_TRIANGLE_WITH_VERTICAL_BAR Timeout] in
  s' = s \/ s' = Runs.stopped s.
Proof.
  cbv zeta.
  apply (X4_generic_menu_without_pages_only_stops string
           (Demo.menu_on Demo.endless 7 7 0, Demo.world0)
           [Demo.event 7 BLACK_RIGHT_POINTING_TRIANGLE Timeout;
            Demo.event 7 BLACK_RIGHT_POINTING_DOUBLE_TRIANGLE_WITH_VERTICAL_BAR Timeout]
           (or_introl eq_refl)).
Defined.

(** X5.  A Pokémon-detail menu keeps its arrows and its jump button when the
    source reports an unknown number of pages, and there the handlers meet the
    missing count: next raises [TypeError] on every page, previous raises it
    on page 0, and a jump with a non-zero reply raises it after the prompt was
    sent, so that the prompt is left undeleted.  The menu itself is unchanged
    in all three cases. *)
Theorem X5_poke_list_menu_unknown_page_count
    (E : Type) (m : Menu E) (w : World) (p : Payload) (msg : Message) :
  get_max_pages (_source m) = None ->
  PokeListMenu.next p (m, w) = (Raise TypeError, (m, w))
  /\ (current_page m = 0 -> PokeListMenu.prev p (m, w) = (Raise TypeError, (m, w)))
  /\ (content_int msg <> 0 ->
      PokeListMenu.number_page p (Reply msg) (m, w)
      = (Raise TypeError, (m, sent PokeListMenu.jump_prompt None w))).
Proof.
  intros Hmax.
  assert (Hminus : forall w0, @get_max_pages_minus_1 E (m, w0) = (Raise TypeError, (m, w0))).
  { intros w0. unfold get_max_pages_minus_1. read_self. now rewrite Hmax. }
  repeat split.
  - unfold PokeListMenu.next. read_self. unfold bind. now rewrite Hminus.
  - intros Hc. unfold PokeListMenu.prev. read_self. rewrite Hc. cbn.
    unfold bind. now rewrite Hminus.
  - intros Hnz.
    unfold PokeListMenu.number_page, PokeListMenu.clamp_to_end,
      bind, ctx_send, try_except, ret, self.
    cbn [fst snd]. apply Z.eqb_neq in Hnz. rewrite Hnz. cbn [negb fst snd].
    now rewrite Hmax.
Qed.

Lemma X5_witness :
  outcome (PokeListMenu.next (Demo.press 7 BLACK_RIGHT_POINTING_TRIANGLE)
             (Demo.menu_on Demo.endless 7 7 3, Demo.world0)) = Raise TypeError.
Proof.
  rewrite (proj1 (X5_poke_list_menu_unknown_page_count string
                    (Demo.menu_on Demo.endless 7 7 3) Demo.world0
                    (Demo.press 7 BLACK_RIGHT_POINTING_TRIANGLE)
                    {| msg_id := 900; content_int := 1 |} eq_refl)).
  reflexivity.
Defined.

(** ** Select on somebody else's list *)

Section NoInvoke.
Context {E : Type}.
Variable s0 : State E.
Let K : State E -> Prop := Runs.no_invoke_since s0.

Lemma no_invoke_page n m w : K (m, w) -> K (set_current_page n m, w).
Proof. now intros (Ha & Hu & Ht). Qed.

Lemma no_invoke_running b m w : K (m, w) -> K (set_running b m, w).
Proof. now intros (Ha & Hu & Ht). Qed.

Lemma no_invoke_effect ef m w :
  Runs.is_invoke ef = false -> K (m, w) -> K (m, record_effect ef w).
Proof.
  intros Hef (Ha & Hu & Ht). repeat split; try assumption.
  cbn [snd record_effect trace] in *. rewrite filter_app, Ht. cbn [filter].
  rewrite Hef. apply app_nil_r.
Qed.

Lemma no_invoke_sent content delete_after m w :
  K (m, w) -> K (m, sent content delete_after w).
Proof.
  intros (Ha & Hu & Ht). repeat split; try assumption.
  cbn [snd sent trace] in *. rewrite filter_app, Ht. cbn. apply app_nil_r.
Qed.

Lemma no_invoke_PokeListMenu (button : Button E) :
  ctx_author (fst s0) <> user (fst s0) ->
  In button PokeListMenu.class_buttons ->
  forall ev s, K s -> skip_if button (fst s) = false -> K (snd (action button ev s)).
Proof.
  intros Hother Hin ev s Hs Hshown.
  pose proof no_invoke_page as Hp. pose proof no_invoke_running as Hr.
  pose proof no_invoke_effect as He. pose proof no_invoke_sent as Hn.
  destruct Hin as [<-|[<-|[<-|[<-|[<-|[]]]]]]; cbn [action skip_if] in *.
  - apply (keeps_prev K); assumption.
  - apply (keeps_stop K); assumption.
  - apply (keeps_next K); assumption.
  - exfalso. destruct Hs as (Ha & Hu & _).
    unfold PokeListMenu._cant_select in Hshown. rewrite Ha, Hu in Hshown.
    apply negb_false_iff, Z.eqb_eq in Hshown. contradiction.
  - apply (keeps_number_page K); assumption.
Qed.

End NoInvoke.

(** X6.  While the invoking user of a Pokémon-detail menu is not the user
    whose list is shown, no sequence of events makes the menu invoke a
    command: whoever presses whatever, every invocation in the trace was
    there before. *)
Theorem X6_no_select_on_another_users_list
    (E : Type) (s : State E) (evs : list Event) (command : string) (_id : Z) :
  ctx_author (fst s) <> user (fst s) ->
  In (Invoke command _id) (trace (snd (run PokeListMenu.class_buttons s evs))) ->
  In (Invoke command _id) (trace (snd s)).
Proof.
  intros Hother Hin.
  assert (Hkept : Runs.no_invoke_since s (run PokeListMenu.class_buttons s evs)).
  { apply run_keeps with (I := Runs.no_invoke_since s).
    - intros m w e. now apply no_invoke_effect.
    - intros button Hb ev s1. now apply no_invoke_PokeListMenu.
    - now repeat split. }
  destruct Hkept as (_ & _ & Htrace).
  assert (Hf : In (Invoke command _id)
                  (filter Runs.is_invoke (trace (snd (run PokeListMenu.class_buttons s evs)))))
    by (apply filter_In; now split).
  rewrite Htrace in Hf. now apply filter_In in Hf.
Qed.

Lemma X6_witness :
  ~ In (Invoke "select" 1)
       (trace (snd (run PokeListMenu.class_buttons
                      (Demo.menu_on (ListPageSource Demo.three) 7 8 0, Demo.world0)
                      [Demo.event 7 WHITE_HEAVY_CHECK_MARK Timeout;
                       Demo.event 1 WHITE_HEAVY_CHECK_MARK Timeout]))).
Proof.
  intros Hin.
  apply (X6_no_select_on_another_users_list string
           (Demo.menu_on (ListPageSource Demo.three) 7 8 0, Demo.world0)
           [Demo.event 7 WHITE_HEAVY_CHECK_MARK Timeout;
            Demo.event 1 WHITE_HEAVY_CHECK_MARK Timeout]
           "select" 1 ltac:(cbv; discriminate)) in Hin.
  exact Hin.
Defined.

(** ** First and last page *)

Lemma GenericMenu_double_triangles {E} (entries : list E) (m : Menu E) (p : Payload) :
  _source m = ListPageSource entries ->
  reaction_check GenericMenu.class_buttons m p = true ->
  payload_emoji p = BLACK_LEFT_POINTING_DOUBLE_TRIANGLE_WITH_VERTICAL_BAR
  \/ payload_emoji p = BLACK_RIGHT_POINTING_DOUBLE_TRIANGLE_WITH_VERTICAL_BAR ->
  2 < len entries
  /\ buttons GenericMenu.class_buttons m = GenericMenu.class_buttons.
Proof.
  intros Hs Hcheck Hemoji.
  assert (Hmax : get_max_pages (_source m) = Some (len entries)) by now rewrite Hs.
  unfold reaction_check, buttons, GenericMenu.class_buttons in *.
  cbn [filter skip_if never_skip negb] in *.
  unfold GenericMenu._skip_single_arrows, GenericMenu._skip_double_triangle_buttons in *.
  rewrite Hmax in *.
  destruct (negb (payload_message_id p =? message_id m)); [discriminate|].
  destruct (negb (existsb (Z.eqb (payload_user_id p)) (owner_ids m ++ [_author_id m])));
    [discriminate|].
  destruct (len entries =? 1) eqn:H1; destruct (len entries <=? 2) eqn:H2;
    cbn [negb] in *;
    try (destruct Hemoji as [He|He]; rewrite He in Hcheck; cbn in Hcheck; discriminate).
  - apply Z.eqb_eq in H1. apply Z.leb_gt in H2. lia.
  - apply Z.leb_gt in H2. split; [lia | reflexivity].
Qed.

(** X7.  On a running generic menu over a list, a press of the first-page or
    last-page button is delivered only when the list has more than two pages;
    the first-page button then shows page 0 and the last-page button shows
    the last page, whatever page the menu was on. *)
Theorem X7_first_and_last_page
    (E : Type) (entries : list E) (m : Menu E) (w : World) (ev : Event) :
  _source m = ListPageSource entries ->
  _running m = true ->
  reaction_check GenericMenu.class_buttons m (payload ev) = true ->
  (payload_emoji (payload ev) = BLACK_LEFT_POINTING_DOUBLE_TRIANGLE_WITH_VERTICAL_BAR ->
   2 < len entries
   /\ dispatch GenericMenu.class_buttons (m, w) ev
      = (set_current_page 0 m, record_effect (Edit 0) w))
  /\ (payload_emoji (payload ev) = BLACK_RIGHT_POINTING_DOUBLE_TRIANGLE_WITH_VERTICAL_BAR ->
      2 < len entries
      /\ dispatch GenericMenu.class_buttons (m, w) ev
         = (set_current_page (len entries - 1) m,
            record_effect (Edit (len entries - 1)) w)).
Proof.
  intros Hs Hrun Hcheck.
  split; intros Hemoji.
  - destruct (GenericMenu_double_triangles entries m (payload ev) Hs Hcheck
                (or_introl Hemoji)) as [Hlen Hall].
    split; [exact Hlen|].
    unfold dispatch. cbn [fst]. rewrite Hrun, Hcheck. cbn [andb].
    unfold update, bind, self, lookup_button. cbn [fst snd].
    rewrite Hall, Hemoji, Hrun. cbn. unfold try_except_all.
    unfold GenericMenu.go_to_first_page.
    now rewrite (show_page_list m w entries 0 Hs) by lia.
  - destruct (GenericMenu_double_triangles entries m (payload ev) Hs Hcheck
                (or_intror Hemoji)) as [Hlen Hall].
    split; [exact Hlen|].
    unfold dispatch. cbn [fst]. rewrite Hrun, Hcheck. cbn [andb].
    unfold update, bind, self, lookup_button. cbn [fst snd].
    rewrite Hall, Hemoji, Hrun. cbn. unfold try_except_all.
    unfold GenericMenu.go_to_last_page, bind.
    rewrite (get_max_pages_minus_1_list m w entries Hs).
    now rewrite (show_page_list m w entries (len entries - 1) Hs) by lia.
Qed.

Lemma X7_witness :
  current_page
    (fst (dispatch GenericMenu.class_buttons (Demo.list_menu Demo.five 1, Demo.world0)
            (Demo.event 7 BLACK_RIGHT_POINTING_DOUBLE_TRIANGLE_WITH_VERTICAL_BAR Timeout)))
  = 4.
Proof.
  destruct (X7_first_and_last_page string Demo.five (Demo.list_menu Demo.five 1) Demo.world0
              (Demo.event 7 BLACK_RIGHT_POINTING_DOUBLE_TRIANGLE_WITH_VERTICAL_BAR Timeout)
              eq_refl eq_refl eq_refl) as [_ Hlast].
  destruct (Hlast eq_refl) as [_ Hrun]. rewrite Hrun. reflexivity.
Defined.

(** ** Everything a jump does *)

(** X8.  On a list source, after a reply other than 0 the jump handler
    returns, and what it did outside is exactly this, in this order: it sent
    the prompt; it sent the notice if and only if the reply exceeds the number
    of pages; it showed the page of the clamped target if and only if that
    target is at least 1; it deleted the prompt and then the reply.  The index
    is the clamped target minus one when a page was shown and unchanged
    otherwise. *)
Theorem X8_number_page_trace
    (E : Type) (entries : list E) (m : Menu E) (w : World) (p : Payload) (msg : Message) :
  _source m = ListPageSource entries ->
  content_int msg <> 0 ->
  let t := content_int msg in
  let total := len entries in
  let target := if t >? total then total else t in
  let r := PokeListMenu.number_page p (Reply msg) (m, w) in
  outcome r = Ok tt
  /\ trace (world_after r)
     = trace w
         ++ [Send (next_id w) PokeListMenu.jump_prompt None]
         ++ (if t >? total
             then [Send (next_id w + 1) PokeListMenu.jump_notice (Some 5)] else [])
         ++ (if 1 <=? target then [Edit (target - 1)] else [])
         ++ [Delete (next_id w); Delete (msg_id msg)]
  /\ menu_after r = (if 1 <=? target then set_current_page (target - 1) m else m).
Proof.
  intros Hs Hnz t total target r.
  assert (Hmax : get_max_pages (_source m) = Some total) by now rewrite Hs.
  pose proof (len_nonneg entries) as Hlen. fold total in Hlen.
  set (w1 := sent PokeListMenu.jump_prompt None w).
  set (w2 := if t >? total then sent PokeListMenu.jump_notice (Some 5) w1 else w1).
  assert (Htarget : (0 <=? target - 1) && (target - 1 <? total) = (1 <=? target)).
  { subst target. destruct (t >? total) eqn:Hgt.
    - destruct (1 <=? total) eqn:H1; [apply Z.leb_le in H1 | apply Z.leb_gt in H1].
      + replace (0 <=? total - 1) with true by (symmetry; apply Z.leb_le; lia).
        replace (total - 1 <? total) with true by (symmetry; apply Z.ltb_lt; lia).
        reflexivity.
      + replace (0 <=? total - 1) with false by (symmetry; apply Z.leb_gt; lia).
        reflexivity.
    - rewrite Z.gtb_ltb in Hgt. apply Z.ltb_ge in Hgt.
      destruct (1 <=? t) eqn:H1; [apply Z.leb_le in H1 | apply Z.leb_gt in H1].
      + replace (0 <=? t - 1) with true by (symmetry; apply Z.leb_le; lia).
        replace (t - 1 <? total) with true by (symmetry; apply Z.ltb_lt; lia).
        reflexivity.
      + replace (0 <=? t - 1) with false by (symmetry; apply Z.leb_gt; lia).
        reflexivity. }
  assert (Hrun : r = (Ok tt,
                      (if 1 <=? target then set_current_page (target - 1) m else m,
                       record_effect (Delete (msg_id msg))
                         (record_effect (Delete (next_id w))
                            (if 1 <=? target
                             then record_effect (Edit (target - 1)) w2 else w2))))).
  { subst r.
    rewrite (number_page_reply m w p msg total
               (if 1 <=? target then set_current_page (target - 1) m else m)
               (if 1 <=? target then record_effect (Edit (target - 1)) w2 else w2)
               Hnz Hmax); [reflexivity|].
    fold t. subst target w2. destruct (t >? total);
      rewrite (show_checked_page_list entries) by assumption;
      fold total; rewrite Htarget;
      now destruct (1 <=? _). }
  rewrite Hrun. unfold outcome, world_after, menu_after. cbn [fst snd].
  repeat split.
  subst w2 w1 target. cbn [record_effect trace].
  destruct (t >? total); destruct (1 <=? _);
    cbn [record_effect sent trace next_id]; rewrite <- ?app_assoc; reflexivity.
Qed.

Lemma X8_witness :
  trace (world_after (PokeListMenu.number_page
                        (Demo.press 7 LEFT_POINTING_MAGNIFYING_GLASS) (Demo.reply 2)
                        (Demo.list_menu Demo.three 0, Demo.world0)))
  = [Send 500 PokeListMenu.jump_prompt None; Edit 1; Delete 500; Delete 900].
Proof.
  destruct (X8_number_page_trace string Demo.three (Demo.list_menu Demo.three 0)
              Demo.world0 (Demo.press 7 LEFT_POINTING_MAGNIFYING_GLASS)
              {| msg_id := 900; content_int := 2 |} eq_refl ltac:(cbv; discriminate))
    as (_ & Htrace & _).
  exact Htrace.
Defined.

(** ** Whose reactions count *)

Lemma emoji_eqb_eq (a b : emoji) : emoji_eqb a b = true <-> a = b.
Proof.
  split.
  - destruct a, b; cbn; intros H; try discriminate; try reflexivity.
    apply String.eqb_eq in H. now subst.
  - intros <-. destruct a; cbn; try reflexivity. apply String.eqb_refl.
Qed.

(** X9.  In both menu classes a reaction passes [reaction_check] exactly when
    it is on the menu's own message, comes from the menu's author or from one
    of the bot's owners, and its emoji belongs to a button the menu currently
    offers. *)
Theorem X9_reaction_check_accepts
    (E : Type) (class_buttons : list (Button E)) (m : Menu E) (p : Payload) :
  reaction_check class_buttons m p = true
  <-> payload_message_id p = message_id m
      /\ (In (payload_user_id p) (owner_ids m) \/ payload_user_id p = _author_id m)
      /\ In (payload_emoji p) (map button_emoji (buttons class_buttons m)).
Proof.
  unfold reaction_check.
  destruct (payload_message_id p =? message_id m) eqn:Hmsg; cbn [negb].
  2:{ apply Z.eqb_neq in Hmsg. split; [discriminate | tauto]. }
  apply Z.eqb_eq in Hmsg.
  destruct (existsb (Z.eqb (payload_user_id p)) (owner_ids m ++ [_author_id m])) eqn:Huser;
    cbn [negb].
  - apply existsb_exists in Huser. destruct Huser as (x & Hin & Heq).
    apply Z.eqb_eq in Heq. subst x.
    assert (Hwho : In (payload_user_id p) (owner_ids m) \/ payload_user_id p = _author_id m).
    { apply in_app_or in Hin. destruct Hin as [Hin|[Hin|[]]]; [now left | now right]. }
    rewrite existsb_exists. split.
    + intros (button & Hin' & Heq). apply emoji_eqb_eq in Heq.
      repeat split; try assumption. apply in_map_iff. now exists button.
    + intros (_ & _ & Hin'). apply in_map_iff in Hin'.
      destruct Hin' as (button & Heq & Hin'). exists button.
      split; [assumption | now apply emoji_eqb_eq].
  - split; [discriminate|]. intros (_ & Hwho & _). exfalso.
    apply not_true_iff_false in Huser. apply Huser. apply existsb_exists.
    exists (payload_user_id p). split; [|apply Z.eqb_refl].
    apply in_or_app. destruct Hwho as [Hin | ->]; [now left | right; now left].
Qed.

(** ** The search page *)

Lemma GenericMenu_run_on_a_page {E} (entries : list E) (s : State E) (evs : list Event) :
  Runs.on_a_page entries s ->
  Runs.on_a_page entries (run GenericMenu.class_buttons s evs).
Proof.
  intros Hs. apply run_keeps with (I := Runs.on_a_page entries); try assumption.
  - intros m w e H. now apply on_a_page_record.
  - intros button Hin ev s0 H0 _. now apply on_a_page_GenericMenu.
Qed.

(** X10.  A search menu opened on a list and sitting on one of its pages
    renders, after any sequence of events, a footer ["Page k/total"] whose
    [k] is the index plus one and lies between 1 and the number of entries. *)
Theorem X10_search_footer_in_range
    (embed_color : Z) (entries : list string) (s : State string) (evs : list Event)
    (string_ : string) :
  Runs.on_a_page entries s ->
  let menu := fst (run GenericMenu.class_buttons s evs) in
  1 <= current_page menu + 1 <= len entries
  /\ SearchFormat.footer (SearchFormat.format_page embed_color menu string_)
     = ("Page " ++ str (current_page menu + 1) ++ "/" ++ str (len entries))%string.
Proof.
  intros Hs menu.
  destruct (GenericMenu_run_on_a_page entries s evs Hs) as (Hsrc & Hc & _).
  fold menu in Hsrc, Hc. split; [lia|].
  unfold SearchFormat.format_page. cbn [SearchFormat.footer]. now rewrite Hsrc.
Qed.

Lemma X10_witness :
  SearchFormat.footer
    (SearchFormat.format_page 0
       (fst (run GenericMenu.class_buttons
               (Demo.menu_on (SearchFormat.source Demo.three) 7 7 2, Demo.world0)
               [Demo.event 7 BLACK_RIGHT_POINTING_TRIANGLE Timeout;
                Demo.event 7 BLACK_RIGHT_POINTING_TRIANGLE Timeout]))
       "ivysaur")
  = "Page 2/3".
Proof.
  refine (proj2 (X10_search_footer_in_range 0 Demo.three
                   (Demo.menu_on (SearchFormat.source Demo.three) 7 7 2, Demo.world0)
                   [Demo.event 7 BLACK_RIGHT_POINTING_TRIANGLE Timeout;
                    Demo.event 7 BLACK_RIGHT_POINTING_TRIANGLE Timeout]
                   "ivysaur" _)).
  repeat split; [discriminate | constructor].
Defined.

(** ** The Pokédex page *)

Lemma last_cons_default {A} (l : list A) : forall a d d',
  List.last (a :: l) d = List.last (a :: l) d'.
Proof.
  induction l as [|y l IH]; intros a d d'; [reflexivity|].
  change (List.last (y :: l) d = List.last (y :: l) d'). apply IH.
Qed.

Lemma nth_error_last {A} (rest : list A) : forall x,
  nth_error (x :: rest) (List.length rest) = Some (List.last (x :: rest) x).
Proof.
  induction rest as [|y rest IH]; intros x; [reflexivity|].
  cbn [List.length nth_error]. rewrite IH. f_equal.
  change (List.last (y :: rest) y = List.last (y :: rest) x).
  apply last_cons_default.
Qed.

Lemma getitem_first {A} (x : A) (rest : list A) : getitem (x :: rest) 0 = Ok x.
Proof. reflexivity. Qed.

Lemma getitem_minus_1 {A} (x : A) (rest : list A) :
  getitem (x :: rest) (-1) = Ok (List.last (x :: rest) x).
Proof.
  unfold getitem, len. cbn [Z.ltb Z.compare List.length].
  replace (-1 + Z.of_nat (S (List.length rest))) with (Z.of_nat (List.length rest)) by lia.
  replace (Z.of_nat (List.length rest) <? 0) with false by (symmetry; apply Z.ltb_ge; lia).
  rewrite Nat2Z.id. now rewrite nth_error_last.
Qed.

Lemma str_positive_not_N (n : Z) (tail rest : string) :
  0 < n -> (str n ++ tail)%string <> String "N" rest.
Proof.
  intros Hn. destruct n as [|q|q]; try lia.
  unfold str. cbn [Z.to_int]. unfold NilZero.string_of_int, NilZero.string_of_uint.
  destruct (Pos.to_uint q); cbn; discriminate.
Qed.

Section Pokedex.
Variable embed_colour : Z.
Variable get_name : string -> Z -> string.
Variable Key : Type.
Variable pokeids : Z -> list Key.
Variable len_poke : Z.
Variable menu : Menu PokedexFormat.Item.

Let add := PokedexFormat.add_pokemon get_name menu.
Let render := PokedexFormat.format_page embed_colour get_name Key pokeids len_poke menu.

(** The field the loop body adds for one record. *)
Let field_of (pokemon : Z * PokedexFormat.Record_) : PokedexFormat.Field :=
  {| PokedexFormat.field_name :=
       (get_name (PokedexFormat.name (snd pokemon)) (ctx_author menu)
          ++ " " ++ str (PokedexFormat.id (snd pokemon)))%string;
     PokedexFormat.field_value :=
       if PokedexFormat.amount (snd pokemon) >? 0
       then (str (PokedexFormat.amount (snd pokemon)) ++ " caught! ✅")%string
       else "Not caught yet! ❌" |}.

Lemma add_pokemon_fold (item : PokedexFormat.Item) : forall embed,
  fold_left add item embed
  = {| PokedexFormat.title := PokedexFormat.title embed;
       PokedexFormat.color := PokedexFormat.color embed;
       PokedexFormat.description := PokedexFormat.description embed;
       PokedexFormat.footer := PokedexFormat.footer embed;
       PokedexFormat.fields := PokedexFormat.fields embed ++ map field_of item |}.
Proof.
  induction item as [|pokemon rest IH]; intros embed.
  - cbn. rewrite app_nil_r. now destruct embed.
  - cbn [fold_left map]. rewrite IH.
    unfold add, PokedexFormat.add_pokemon, PokedexFormat.add_field.
    cbn [PokedexFormat.title PokedexFormat.color PokedexFormat.description
         PokedexFormat.footer PokedexFormat.fields].
    now rewrite <- app_assoc.
Qed.

Lemma pokedex_page (first : Z * PokedexFormat.Record_) (rest : PokedexFormat.Item) :
  exists embed,
    render (first :: rest) = Ok embed
    /\ PokedexFormat.fields embed = map field_of (first :: rest)
    /\ PokedexFormat.footer embed
       = ("Showing " ++ str (fst first) ++ "-" ++ str (fst (List.last (first :: rest) first))
            ++ " of " ++ str len_poke ++ ".")%string
    /\ PokedexFormat.description embed
       = if current_page menu =? 0
         then Some ("You've caught " ++ str (len (pokeids (ctx_author menu)))
                      ++ " out of " ++ str len_poke ++ " pokémon.")%string
         else None.
Proof.
  unfold render, PokedexFormat.format_page.
  rewrite getitem_first, getitem_minus_1.
  eexists. split; [reflexivity|].
  fold add. rewrite add_pokemon_fold.
  destruct (current_page menu =? 0); cbn; repeat split.
Qed.

End Pokedex.

(** X11.  Whenever the Pokédex renderer returns an embed, the embed has one
    field per record of the batch, in the batch's order; the field is named
    after the record's display name and id, and its text is the "not caught
    yet" line exactly when the record's amount is at most 0 and the amount
    followed by "caught!" otherwise. *)
Theorem X11_pokedex_one_field_per_record
    (embed_colour : Z) (get_name : string -> Z -> string) (Key : Type)
    (pokeids : Z -> list Key) (len_poke : Z) (menu : Menu PokedexFormat.Item)
    (item : PokedexFormat.Item) (embed : PokedexFormat.Embed) :
  PokedexFormat.format_page embed_colour get_name Key pokeids len_poke menu item = Ok embed ->
  List.length (PokedexFormat.fields embed) = List.length item
  /\ forall i pokemon,
       nth_error item i = Some pokemon ->
       exists field,
         nth_error (PokedexFormat.fields embed) i = Some field
         /\ PokedexFormat.field_name field
            = (get_name (PokedexFormat.name (snd pokemon)) (ctx_author menu)
                 ++ " " ++ str (PokedexFormat.id (snd pokemon)))%string
         /\ (PokedexFormat.field_value field = "Not caught yet! ❌"
             <-> PokedexFormat.amount (snd pokemon) <= 0)
         /\ (0 < PokedexFormat.amount (snd pokemon) ->
             PokedexFormat.field_value field
             = (str (PokedexFormat.amount (snd pokemon)) ++ " caught! ✅")%string).
Proof.
  intros Hrender.
  destruct item as [|first rest]; [discriminate|].
  destruct (pokedex_page embed_colour get_name Key pokeids len_poke menu first rest)
    as (embed' & Hrender' & Hfields & _).
  rewrite Hrender' in Hrender. injection Hrender as <-.
  rewrite Hfields. split; [apply length_map|].
  intros i pokemon Hnth.
  eexists. split; [rewrite nth_error_map, Hnth; reflexivity|].
  cbn [PokedexFormat.field_name PokedexFormat.field_value].
  split; [reflexivity|].
  destruct (PokedexFormat.amount (snd pokemon) >? 0) eqn:Hpos.
  - apply Z.gtb_lt in Hpos. split; [|reflexivity].
    split; [|lia]. intros Heq. exfalso.
    exact (str_positive_not_N _ _ _ Hpos Heq).
  - rewrite Z.gtb_ltb in Hpos. apply Z.ltb_ge in Hpos.
    split; [tauto | lia].
Qed.

Lemma X11_witness :
  exists embed,
    Demo.dex_render 0 Demo.dex_page = Ok embed
    /\ map PokedexFormat.field_value (PokedexFormat.fields embed)
       = ["2 caught! ✅"; "Not caught yet! ❌"]
    /\ List.length (PokedexFormat.fields embed) = 2%nat.
Proof.
  eexists. split; [reflexivity|]. split; [reflexivity|].
  apply (proj1 (X11_pokedex_one_field_per_record 0 (fun n _ => n) Z (fun _ => [1; 4; 7]) 151
                  (Demo.menu_on (PokedexFormat.source [Demo.dex_page]) 7 7 0)
                  Demo.dex_page _ eq_refl)).
Defined.

(** X12.  The Pokédex renderer raises [IndexError] on an empty batch.  On any
    other batch it returns an embed whose footer shows the position of the
    first and of the last record of the batch and the menu's [len_poke], and
    whose description, the count of caught identifiers out of [len_poke], is
    set exactly when the menu is on page 0. *)
Theorem X12_pokedex_footer_and_summary
    (embed_colour : Z) (get_name : string -> Z -> string) (Key : Type)
    (pokeids : Z -> list Key) (len_poke : Z) (menu : Menu PokedexFormat.Item) :
  let render := PokedexFormat.format_page embed_colour get_name Key pokeids len_poke menu in
  render [] = Raise IndexError
  /\ forall first rest,
       exists embed,
         render (first :: rest) = Ok embed
         /\ PokedexFormat.footer embed
            = ("Showing " ++ str (fst first) ++ "-"
                 ++ str (fst (List.last (first :: rest) first))
                 ++ " of " ++ str len_poke ++ ".")%string
         /\ (PokedexFormat.description embed = None <-> current_page menu <> 0)
         /\ PokedexFormat.description embed
            = if current_page menu =? 0
              then Some ("You've caught " ++ str (len (pokeids (ctx_author menu)))
                           ++ " out of " ++ str len_poke ++ " pokémon.")%string
              else None.
Proof.
  intros render. split; [reflexivity|].
  intros first rest.
  destruct (pokedex_page embed_colour get_name Key pokeids len_poke menu first rest)
    as (embed & Hrender & _ & Hfooter & Hdesc).
  exists embed. repeat split; try assumption.
  - rewrite Hdesc. destruct (current_page menu =? 0) eqn:H0; [discriminate|].
    intros _. now apply Z.eqb_neq.
  - rewrite Hdesc. intros Hne. apply Z.eqb_neq in Hne. now rewrite Hne.
Qed.

Example pokedex_first_page :
  exists embed,
    Demo.dex_render 0 Demo.dex_page = Ok embed
    /\ PokedexFormat.footer embed = "Showing 1-2 of 151."
    /\ PokedexFormat.description embed = Some "You've caught 3 out of 151 pokémon."
    /\ map PokedexFormat.field_name (PokedexFormat.fields embed)
       = ["Bulbasaur 1"; "Ivysaur 2"].
Proof. eexists. repeat split. Qed.
